(** * Auto-CRM: robot telemetry simulator, alert evaluator and broadcast hub

    A shallow embedding of the telemetry core of the backend:

    - [backend/simulator/robot_simulator.py]  (class [RobotSimulator])
    - [backend/app.py]                        ([check_alerts],
      [telemetry_generator], [create_app], [run_app])
    - [backend/websocket/socket_handler.py]   (the Socket.IO handlers and
      the [broadcast_*] functions)
    - [backend/services/telemetry_service.py] ([TelemetryService])
    - [backend/models/telemetry.py]           (the rows and [to_dict])

    Conventions of the embedding.
    - Python [float]s are modelled by exact rationals ([Q]); Python [int]s
      by [Z]; [str] by [string]; a [dict] with string keys by
      [gmap string value].
    - The hidden state of the [random] module is a tape of raw integers
      with a cursor; every library call consumes one cell and reduces it to
      the range of the call, so that every value of the range can be drawn
      and no other.
    - The wall clock read by [datetime.utcnow().isoformat()] is an
      argument [now] of the function that reads it; every such string is
      accepted by [datetime.fromisoformat].
    - Exceptions are results: code that may raise returns [Ok] or [Raise],
      and keeps the changes it made before it raised.
    - The database is its two tables and an oracle that says which commits
      it refuses; the Socket.IO server is its clients, its rooms and the
      list of what it emitted to whom.
    - Threads are an interleaving of the statements of
      [generate_telemetry] on the one shared simulator. *)

From Stdlib Require Import ZArith QArith Qround Lqa Lia String List Bool.
From stdpp Require Import gmap strings list fin_maps.

Local Open Scope string_scope.
Local Open Scope list_scope.
Local Open Scope Z_scope.

(** ** Python values *)

(** The values that occur in the dictionaries of the modelled code.
    [VFmt pre v post] is the f-string [f"{pre}{v}{post}"] kept unrendered:
    how Python prints a float is outside the model. *)
Inductive value : Type :=
  | VNone
  | VBool (b : bool)
  | VInt (z : Z)
  | VFloat (q : Q)
  | VStr (s : string)
  | VFmt (pre : string) (v : value) (post : string).

Abbreviation dict := (gmap string value).

(** Numeric view of a value ([bool] is a subclass of [int]); [None] where
    an ordering comparison with a number raises [TypeError]. *)
Definition as_number (v : value) : option Q :=
  match v with
  | VBool b => Some (if b then 1%Q else 0%Q)
  | VInt z => Some (inject_Z z)
  | VFloat q => Some q
  | _ => None
  end.

(** [v == w] on values: numbers compare by value, strings by content. *)
Definition py_eq (v w : value) : bool :=
  match as_number v, as_number w with
  | Some a, Some b => Qeq_bool a b
  | _, _ =>
      match v, w with
      | VNone, VNone => true
      | VStr s, VStr t => bool_decide (s = t)
      | _, _ => false
      end
  end.

(** [int(x)]: truncation towards zero. *)
Definition py_int (q : Q) : Z := Z.quot (Qnum q) (Zpos (Qden q)).

(** [max(a, b)] with two arguments: [b] only when it is strictly larger. *)
Definition py_max (a b : Q) : Q := if Qle_bool b a then a else b.

(** Nearest integer, ties to even. *)
Definition round_half_even (q : Q) : Z :=
  let f := Qfloor q in
  match (q - inject_Z f ?= 1 # 2)%Q with
  | Lt => f
  | Gt => f + 1
  | Eq => if Z.even f then f else f + 1
  end.

(** [round(x, 1)], on the exact value. Python returns the double nearest to
    this decimal, so what is proved of [py_round1] below is what holds of
    both: bounds that are whole tenths, and that rounding again changes
    nothing. *)
Definition py_round1 (q : Q) : Q := (inject_Z (round_half_even (q * 10)) / 10)%Q.

(** ** The [random] module *)

Record rng : Type := { tape : nat -> Z; cursor : nat }.

(** Computations that draw from the generator. *)
Definition Rand (A : Type) : Type := rng -> A * rng.

Definition ret {A} (a : A) : Rand A := fun g => (a, g).
Definition bind {A B} (m : Rand A) (k : A -> Rand B) : Rand B :=
  fun g => let (a, g') := m g in k a g'.

Notation "'let*' x ':=' m 'in' k" := (bind m (fun x => k))
  (at level 10, x name, m at level 100, k at level 200).

(** One raw cell of the tape. *)
Definition next_raw : Rand Z :=
  fun g => (tape g (cursor g), {| tape := tape g; cursor := S (cursor g) |}).

(** [random.random()]: a multiple of 2^-53 in [0, 1). *)
Definition random : Rand Q :=
  let* r := next_raw in ret (Qmake (r mod 2 ^ 53) (2 ^ 53)).

(** [random.uniform(a, b)] is [a + (b - a) * random()]. *)
Definition uniform (a b : Q) : Rand Q :=
  let* u := random in ret (a + (b - a) * u)%Q.

(** [_randbelow(n)]: some integer in [0, n). *)
Definition randbelow (n : Z) : Rand Z :=
  let* r := next_raw in ret (r mod n).

(** [random.randint(a, b)] is [a + _randbelow(b - a + 1)]. *)
Definition randint (a b : Z) : Rand Z :=
  let* k := randbelow (b - a + 1) in ret (a + k).

(** [random.choice(seq)] is [seq[_randbelow(len(seq))]]; [d] stands for the
    [IndexError] of an empty sequence. *)
Definition choice {A} (seq : list A) (d : A) : Rand A :=
  let* k := randbelow (Z.of_nat (length seq)) in ret (nth (Z.to_nat k) seq d).

(** ** [RobotSimulator] *)

Module RobotSimulator.

Record t : Type := {
  _running : bool;
  _current_status : string;
  _battery_level : Q
}.

Definition STATUS_CHOICES : list string := ["idle"; "working"; "working"; "working"; "error"].
Definition TEMP_MIN : Q := 35.
Definition TEMP_MAX : Q := 55.
Definition BATTERY_MIN : Q := 20.
Definition BATTERY_MAX : Z := 100.
Definition RPM_MIN : Z := 800.
Definition RPM_MAX : Z := 1800.

Definition __init__ : Rand t :=
  let* b := randint 70 100 in
  ret {| _running := true; _current_status := "idle"; _battery_level := inject_Z b |}.

Definition is_running (self : t) : bool := _running self.

Definition start (self : t) : dict * t :=
  ({[ "success" := VBool true; "message" := VStr "Robot started" ]},
   {| _running := true; _current_status := "working";
      _battery_level := _battery_level self |}).

Definition stop (self : t) : dict * t :=
  ({[ "success" := VBool true; "message" := VStr "Robot stopped" ]},
   {| _running := false; _current_status := "idle";
      _battery_level := _battery_level self |}).

Definition reset (self : t) : Rand (dict * t) :=
  let* b := randint 70 100 in
  ret ({[ "success" := VBool true; "message" := VStr "Robot reset" ]},
       {| _running := true; _current_status := "idle";
          _battery_level := inject_Z b |}).

Definition set_status (self : t) (s : string) : t :=
  {| _running := _running self; _current_status := s;
     _battery_level := _battery_level self |}.

Definition set_battery (self : t) (b : Q) : t :=
  {| _running := _running self; _current_status := _current_status self;
     _battery_level := b |}.

Definition generate_telemetry (self : t) (now : string) : Rand (dict * t) :=
  (* Temperature varies based on status *)
  let* temperature :=
    if bool_decide (_current_status self = "working") then uniform 40 TEMP_MAX
    else if bool_decide (_current_status self = "error") then uniform 50 60
    else uniform TEMP_MIN 42 in
  (* Battery decreases slowly when working *)
  let* self :=
    if _running self && bool_decide (_current_status self = "working") then
      let* u := uniform 0 (1 # 2) in
      ret (set_battery self (py_max BATTERY_MIN (_battery_level self - u)))
    else ret self in
  let battery := py_int (_battery_level self) in
  (* Motor RPM based on status *)
  let* motor_rpm :=
    if bool_decide (_current_status self = "working") then randint 1200 RPM_MAX
    else if bool_decide (_current_status self = "error") then randint 0 500
    else randint RPM_MIN 1000 in
  (* Randomly change status (with low probability) *)
  let* self :=
    if _running self then
      let* r := random in
      if Qlt_le_dec r (1 # 10) then
        let* s := choice STATUS_CHOICES "" in ret (set_status self s)
      else ret self
    else ret self in
  (* If battery is low, increase error probability *)
  let* self :=
    if (battery <? 30)%Z then
      let* r := random in
      if Qlt_le_dec r (3 # 10) then ret (set_status self "error") else ret self
    else ret self in
  ret ({[ "temperature" := VFloat (py_round1 temperature);
          "battery" := VInt battery;
          "motor_rpm" := VInt motor_rpm;
          "status" := VStr (_current_status self);
          "timestamp" := VStr now ]},
       self).

(** The bound methods stored in the [commands] dictionary. *)
Definition method : Type := t -> Rand (dict * t).

Definition execute_command (self : t) (command : string) : Rand (dict * t) :=
  let commands : gmap string method :=
    {[ "start" := (fun self => ret (start self));
       "stop" := (fun self => ret (stop self));
       "reset" := reset ]} in
  match commands !! command with
  | None =>
      ret ({[ "success" := VBool false;
              "message" := VStr ("Unknown command: " ++ command)%string ]},
           self)
  | Some m => m self
  end.

End RobotSimulator.

(** ** Exceptions *)

(** Python exceptions by class name and message. [Exception cls msg] is an
    instance of a subclass of [Exception]; [BaseException cls msg] one of
    the classes outside it ([KeyboardInterrupt], [SystemExit]). *)
Inductive exn : Type :=
  | Exception (cls msg : string)
  | BaseException (cls msg : string).

Inductive result (A : Type) : Type :=
  | Ok (a : A)
  | Raise (e : exn).
Arguments Ok {A} a.
Arguments Raise {A} e.

Definition rbind {A B} (m : result A) (k : A -> result B) : result B :=
  match m with
  | Ok a => k a
  | Raise e => Raise e
  end.

Notation "'let?' x ':=' m 'in' k" := (rbind m (fun x => k))
  (at level 10, x name, m at level 100, k at level 200).

(** [d.get(k, default)]. *)
Definition get (d : dict) (k : string) (default : value) : value :=
  match d !! k with
  | Some v => v
  | None => default
  end.

(** [d[k]]. *)
Definition getitem (d : dict) (k : string) : result value :=
  match d !! k with
  | Some v => Ok v
  | None => Raise (Exception "KeyError" k)
  end.

(** [x > y] and [x < y] on numbers. *)
Definition Qgtb (x y : Q) : bool := if Qlt_le_dec y x then true else false.
Definition Qltb (x y : Q) : bool := if Qlt_le_dec x y then true else false.

(** [v > n] and [v < n] of a value against a number; a value that is not a
    number raises [TypeError]. *)
Definition py_gt (v : value) (n : Q) : result bool :=
  match as_number v with
  | Some a => Ok (Qgtb a n)
  | None => Raise (Exception "TypeError" "'>' not supported")
  end.

Definition py_lt (v : value) (n : Q) : result bool :=
  match as_number v with
  | Some a => Ok (Qltb a n)
  | None => Raise (Exception "TypeError" "'<' not supported")
  end.

(** ** [check_alerts] ([backend/app.py]) *)

Definition check_alerts (telemetry_data : dict) : result (list dict) :=
  let alerts : list dict := [] in
  (* Temperature alert *)
  let? c := py_gt (get telemetry_data "temperature" (VInt 0)) 50 in
  let? alerts :=
    if c then
      let? t := getitem telemetry_data "temperature" in
      Ok (alerts ++ [ {[ "type" := VStr "warning";
                         "category" := VStr "temperature";
                         "message" := VFmt "High temperature: " t "°C";
                         "threshold" := VInt 50;
                         "value" := t ]} ])
    else Ok alerts in
  let? c := py_gt (get telemetry_data "temperature" (VInt 0)) 55 in
  let? alerts :=
    if c then
      let? t := getitem telemetry_data "temperature" in
      Ok (alerts ++ [ {[ "type" := VStr "critical";
                         "category" := VStr "temperature";
                         "message" := VFmt "Critical temperature: " t "°C";
                         "threshold" := VInt 55;
                         "value" := t ]} ])
    else Ok alerts in
  (* Battery alert *)
  let? c := py_lt (get telemetry_data "battery" (VInt 100)) 20 in
  let? alerts :=
    if c then
      let? b := getitem telemetry_data "battery" in
      Ok (alerts ++ [ {[ "type" := VStr "warning";
                         "category" := VStr "battery";
                         "message" := VFmt "Low battery: " b "%";
                         "threshold" := VInt 20;
                         "value" := b ]} ])
    else Ok alerts in
  let? c := py_lt (get telemetry_data "battery" (VInt 100)) 10 in
  let? alerts :=
    if c then
      let? b := getitem telemetry_data "battery" in
      Ok (alerts ++ [ {[ "type" := VStr "critical";
                         "category" := VStr "battery";
                         "message" := VFmt "Critical battery: " b "%";
                         "threshold" := VInt 10;
                         "value" := b ]} ])
    else Ok alerts in
  (* Error status alert *)
  let alerts :=
    if py_eq (get telemetry_data "status" VNone) (VStr "error") then
      alerts ++ [ {[ "type" := VStr "critical";
                     "category" := VStr "status";
                     "message" := VStr "Robot in ERROR state";
                     "value" := VStr "error" ]} ]
    else alerts in
  Ok alerts.

(** ** The Socket.IO hub ([backend/websocket/socket_handler.py]) *)

(** The functions of the module as functions on the state of the hub. What
    [broadcast_telemetry] and [broadcast_alert] log is added where a thread
    of the process calls them (the [broadcast_telemetry] and
    [broadcast_alert] of the process, below); the log records of the
    handlers, which run on the threads of the server, are left out. *)

Module SocketHandler.

(** One emission: the recipients at the time of the call, the event name
    and the payload. *)
Definition emission : Type := gset string * string * dict.

(** The state of the [socketio] server object (clients of the default
    namespace, rooms, what was emitted so far) together with the module's
    own [connected_clients] set. *)
Record t : Type := {
  sio_clients : gset string;
  sio_rooms : gmap string (gset string);
  sio_sent : list emission;
  connected_clients : gset string
}.

Definition init : t :=
  {| sio_clients := ∅; sio_rooms := ∅; sio_sent := []; connected_clients := ∅ |}.

Definition room (h : t) (name : string) : gset string :=
  default ∅ (sio_rooms h !! name).

Definition send (h : t) (e : emission) : t :=
  {| sio_clients := sio_clients h; sio_rooms := sio_rooms h;
     sio_sent := sio_sent h ++ [e]; connected_clients := connected_clients h |}.

(** [socketio.emit(event, data)]: to every client of the namespace. *)
Definition socketio_emit (event : string) (data : dict) (h : t) : t :=
  send h (sio_clients h, event, data).

(** [socketio.emit(event, data, room=name)]. *)
Definition socketio_emit_room (event : string) (data : dict) (name : string) (h : t) : t :=
  send h (room h name, event, data).

(** [emit(event, data)] inside a handler: to the client of the request.
    Flask-SocketIO addresses it through the room named by the session id of
    the request; the replies are modelled for clients that do not use a
    session id as the name of a channel. A client that is in no room
    receives no reply either way. *)
Definition emit (sid : string) (event : string) (data : dict) (h : t) : t :=
  send h ({[ sid ]}, event, data).

Definition join_room (sid name : string) (h : t) : t :=
  {| sio_clients := sio_clients h;
     sio_rooms := <[ name := {[ sid ]} ∪ room h name ]> (sio_rooms h);
     sio_sent := sio_sent h; connected_clients := connected_clients h |}.

Definition leave_room (sid name : string) (h : t) : t :=
  {| sio_clients := sio_clients h;
     sio_rooms := <[ name := room h name ∖ {[ sid ]} ]> (sio_rooms h);
     sio_sent := sio_sent h; connected_clients := connected_clients h |}.

(** What the server does before it calls the [connect] handler and after
    the [disconnect] handler. *)
Definition server_connect (sid : string) (h : t) : t :=
  {| sio_clients := {[ sid ]} ∪ sio_clients h; sio_rooms := sio_rooms h;
     sio_sent := sio_sent h; connected_clients := connected_clients h |}.

Definition server_disconnect (sid : string) (h : t) : t :=
  {| sio_clients := sio_clients h ∖ {[ sid ]};
     sio_rooms := (fun members => members ∖ {[ sid ]}) <$> sio_rooms h;
     sio_sent := sio_sent h; connected_clients := connected_clients h |}.

Definition handle_connect (sid : string) (h : t) : t :=
  let client_id := sid in
  let h := {| sio_clients := sio_clients h; sio_rooms := sio_rooms h;
              sio_sent := sio_sent h;
              connected_clients := {[ client_id ]} ∪ connected_clients h |} in
  emit sid "connection_status"
    {[ "status" := VStr "connected";
       "client_id" := VStr client_id;
       "message" := VStr "Connected to Robot Telemetry WebSocket" ]} h.

Definition handle_disconnect (sid : string) (h : t) : t :=
  let client_id := sid in
  {| sio_clients := sio_clients h; sio_rooms := sio_rooms h;
     sio_sent := sio_sent h;
     connected_clients := connected_clients h ∖ {[ client_id ]} |}.

(** The payload of [subscribe] and [unsubscribe] is a dictionary whose
    entries are strings. *)
Definition handle_subscribe (sid : string) (data : gmap string string) (h : t) : t :=
  let channel := default "telemetry" (data !! "channel") in
  let h := join_room sid channel h in
  emit sid "subscribed"
    {[ "channel" := VStr channel;
       "message" := VStr ("Subscribed to " ++ channel ++ " updates")%string ]} h.

Definition handle_unsubscribe (sid : string) (data : gmap string string) (h : t) : t :=
  let channel := default "telemetry" (data !! "channel") in
  let h := leave_room sid channel h in
  emit sid "unsubscribed"
    {[ "channel" := VStr channel;
       "message" := VStr ("Unsubscribed from " ++ channel)%string ]} h.

Definition handle_ping (sid : string) (h : t) : t :=
  emit sid "pong" {[ "message" := VStr "pong" ]} h.

Definition broadcast_telemetry (telemetry_data : dict) (h : t) : t :=
  if bool_decide (connected_clients h ≠ ∅) then
    let h := socketio_emit_room "telemetry_update" telemetry_data "telemetry" h in
    socketio_emit "telemetry_update" telemetry_data h  (* Also emit to all *)
  else h.

Definition broadcast_alert (alert_data : dict) (h : t) : t :=
  socketio_emit "alert" alert_data h.

Definition broadcast_command_result (result : dict) (h : t) : t :=
  socketio_emit "command_result" result h.

Definition get_connected_clients_count (h : t) : nat := size (connected_clients h).

(** What the transport does to the hub, one event at a time. *)
Inductive event : Type :=
  | Connect (sid : string)
  | Disconnect (sid : string)
  | Subscribe (sid : string) (data : gmap string string)
  | Unsubscribe (sid : string) (data : gmap string string)
  | Ping (sid : string)
  | PublishTelemetry (telemetry_data : dict)
  | PublishAlert (alert_data : dict)
  | PublishCommandResult (result : dict).

Definition step (h : t) (e : event) : t :=
  match e with
  | Connect sid => handle_connect sid (server_connect sid h)
  | Disconnect sid => server_disconnect sid (handle_disconnect sid h)
  | Subscribe sid data => handle_subscribe sid data h
  | Unsubscribe sid data => handle_unsubscribe sid data h
  | Ping sid => handle_ping sid h
  | PublishTelemetry d => broadcast_telemetry d h
  | PublishAlert a => broadcast_alert a h
  | PublishCommandResult r => broadcast_command_result r h
  end.

Definition run (events : list event) (h : t) : t := fold_left step events h.

(** The messages a client was sent, oldest first. *)
Definition received (h : t) (sid : string) : list (string * dict) :=
  omap (fun e : emission =>
          if bool_decide (sid ∈ e.1.1) then Some (e.1.2, e.2) else None)
       (sio_sent h).

End SocketHandler.

(** ** The database session ([backend/models/telemetry.py]) *)

Module Db.

Record Telemetry : Type := {
  id : Z;
  robot_id : string;
  temperature : Q;
  battery : Z;
  motor_rpm : Z;
  status : string;
  timestamp : string
}.

Record Command : Type := {
  command_id : Z;
  command_robot_id : string;
  command : string;
  executed_at : string
}.

(** The tables, the number of commits attempted so far, and which of the
    commits the database refuses (with the message of its error). *)
Record t : Type := {
  telemetry : list Telemetry;
  commands : list Command;
  commits : nat;
  fault : nat -> option string
}.

Definition to_dict (r : Telemetry) : dict :=
  {[ "id" := VInt (id r);
     "robot_id" := VStr (robot_id r);
     "temperature" := VFloat (py_round1 (temperature r));
     "battery" := VInt (battery r);
     "motor_rpm" := VInt (motor_rpm r);
     "status" := VStr (status r);
     "timestamp" := VStr (timestamp r) ]}.

(** Column types: what the database layer accepts for a [Float], an
    [Integer] and a [String] column. *)
Definition as_float (v : value) : result Q :=
  match as_number v with
  | Some q => Ok q
  | None => Raise (Exception "StatementError" "Float column")
  end.

Definition as_integer (v : value) : result Z :=
  match v with
  | VInt z => Ok z
  | VBool b => Ok (if b then 1 else 0)
  | _ => Raise (Exception "StatementError" "Integer column")
  end.

Definition as_string (v : value) : result string :=
  match v with
  | VStr s => Ok s
  | _ => Raise (Exception "StatementError" "String column")
  end.

(** The primary key of the next row, as SQLite (the database of the
    repository's configuration) chooses it: one more than the largest key
    in the table, whatever rows were deleted before. *)
Definition next_id (rows : list Telemetry) : Z :=
  1 + fold_right Z.max 0 (map id rows).

(** [db.session.add(row); db.session.commit()] for a telemetry row: the
    row gets the next primary key, unless this commit is refused. *)
Definition add_telemetry (mk : Z -> Telemetry) (d : t) : result Telemetry * t :=
  match fault d (commits d) with
  | Some msg =>
      (Raise (Exception "SQLAlchemyError" msg),
       {| telemetry := telemetry d; commands := commands d;
          commits := S (commits d); fault := fault d |})
  | None =>
      let row := mk (next_id (telemetry d)) in
      (Ok row,
       {| telemetry := telemetry d ++ [row]; commands := commands d;
          commits := S (commits d); fault := fault d |})
  end.

Definition add_command (mk : Z -> Command) (d : t) : result Command * t :=
  match fault d (commits d) with
  | Some msg =>
      (Raise (Exception "SQLAlchemyError" msg),
       {| telemetry := telemetry d; commands := commands d;
          commits := S (commits d); fault := fault d |})
  | None =>
      let row := mk (Z.of_nat (length (commands d)) + 1) in
      (Ok row,
       {| telemetry := telemetry d; commands := commands d ++ [row];
          commits := S (commits d); fault := fault d |})
  end.

End Db.

(** ** The process: the module-level objects and what the threads did *)

Inductive level : Type := DEBUG | INFO | WARNING | ERROR.

(** What a thread leaves behind apart from the objects below: log records
    and calls of [time.sleep]. *)
Inductive effect : Type :=
  | Log (lvl : level) (message : value)
  | LogDict (lvl : level) (pre : string) (d : dict)
  | Sleep (seconds : Z).

Record World : Type := {
  simulator : RobotSimulator.t;   (* telemetry_service.simulator *)
  gen : rng;                      (* the random module *)
  db : Db.t;                      (* db.session *)
  hub : SocketHandler.t;          (* socketio and connected_clients *)
  effects : list effect
}.

(** Code that runs on the process and may raise. What it changed before
    it raised stays changed. *)
Definition App (A : Type) : Type := World -> result A * World.

Definition aret {A} (a : A) : App A := fun w => (Ok a, w).
Definition araise {A} (e : exn) : App A := fun w => (Raise e, w).
Definition abind {A B} (m : App A) (k : A -> App B) : App B :=
  fun w => match m w with
           | (Ok a, w') => k a w'
           | (Raise e, w') => (Raise e, w')
           end.

Notation "'let!' x ':=' m 'in' k" := (abind m (fun x => k))
  (at level 10, x name, m at level 100, k at level 200).

Definition lift_result {A} (r : result A) : App A := fun w => (r, w).

(** A method of the simulator, run on the shared instance. *)
Definition on_simulator {A} (m : RobotSimulator.t -> Rand (A * RobotSimulator.t)) : App A :=
  fun w =>
    let '((a, sim), g) := m (simulator w) (gen w) in
    (Ok a, {| simulator := sim; gen := g; db := db w; hub := hub w;
              effects := effects w |}).

Definition on_db {A} (m : Db.t -> result A * Db.t) : App A :=
  fun w =>
    let (r, d) := m (db w) in
    (r, {| simulator := simulator w; gen := gen w; db := d; hub := hub w;
           effects := effects w |}).

Definition on_hub (f : SocketHandler.t -> SocketHandler.t) : App unit :=
  fun w =>
    (Ok tt, {| simulator := simulator w; gen := gen w; db := db w;
               hub := f (hub w); effects := effects w |}).

Definition perform (e : effect) : App unit :=
  fun w =>
    (Ok tt, {| simulator := simulator w; gen := gen w; db := db w;
               hub := hub w; effects := effects w ++ [e] |}).

(** [try: body except Exception as e: handler(e)]. *)
Definition try_except_Exception {A} (body : App A) (handler : string -> string -> App A) : App A :=
  fun w => match body w with
           | (Raise (Exception cls msg), w') => handler cls msg w'
           | other => other
           end.

(** [for x in xs: body(x)]. *)
Fixpoint for_each {A} (xs : list A) (body : A -> App unit) : App unit :=
  match xs with
  | [] => aret tt
  | x :: xs => let! _ := body x in for_each xs body
  end.

(** [time.sleep(seconds)] with a whole number of seconds: a negative
    length and a length that does not fit the clock (64 bits of
    nanoseconds) are refused. The operating system may refuse a sleep of
    many years sooner; the properties below are stated for lengths up to
    [SLEEP_DAY]. *)
Definition SLEEP_DAY : Z := 86400.

Definition sleep (seconds : Z) : App unit :=
  if seconds <? 0 then
    araise (Exception "ValueError" "sleep length must be non-negative")
  else if 2 ^ 63 <=? seconds * 10 ^ 9 then
    araise (Exception "OverflowError" "timestamp too large to convert to C _PyTime_t")
  else perform (Sleep seconds).

(** [broadcast_telemetry] and [broadcast_alert] as a thread of the process
    runs them: the emissions on the hub and the record the function logs. *)
Definition broadcast_telemetry (telemetry_data : dict) : App unit :=
  fun w =>
    let connected_clients := SocketHandler.connected_clients (hub w) in
    (let! _ := on_hub (SocketHandler.broadcast_telemetry telemetry_data) in
     if bool_decide (connected_clients ≠ ∅) then
       perform (Log DEBUG (VFmt "Broadcasted telemetry to "
                             (VInt (Z.of_nat (size connected_clients))) " clients"))
     else aret tt) w.

Definition broadcast_alert (alert_data : dict) : App unit :=
  let! _ := on_hub (SocketHandler.broadcast_alert alert_data) in
  perform (Log INFO (VFmt "Broadcasted alert: "
                       (get alert_data "message" (VStr "Unknown alert")) "")).

(** ** [TelemetryService] ([backend/services/telemetry_service.py]) *)

Module TelemetryService.

Definition DEFAULT_ROBOT_ID : string := "robot_001".

(** [a or b] on an optional string: [None] and the empty string are false. *)
Definition or_else (a : option string) (b : string) : string :=
  match a with
  | Some s => if bool_decide (s = "") then b else s
  | None => b
  end.

Definition as_robot_id (v : option value) : option string :=
  match v with
  | Some (VStr s) => Some s
  | _ => None
  end.

(** The instance of [backend/routes/telemetry.py] is built without a
    robot id. *)
Definition self_robot_id : string := or_else None DEFAULT_ROBOT_ID.

Definition save_telemetry (data : option dict) (robot_id : option string)
    (now : string) : App dict :=
  let! data := match data with
             | None => on_simulator (fun sim => RobotSimulator.generate_telemetry sim now)
             | Some d => aret d
             end in
  let rid := or_else robot_id (or_else (as_robot_id (data !! "robot_id")) self_robot_id) in
  let! temperature := lift_result (let? v := getitem data "temperature" in Db.as_float v) in
  let! battery := lift_result (let? v := getitem data "battery" in Db.as_integer v) in
  let! motor_rpm := lift_result (let? v := getitem data "motor_rpm" in Db.as_integer v) in
  let! status := lift_result (let? v := getitem data "status" in Db.as_string v) in
  let! timestamp := lift_result (let? v := getitem data "timestamp" in Db.as_string v) in
  let! telemetry :=
    on_db (Db.add_telemetry (fun id =>
      {| Db.id := id; Db.robot_id := rid; Db.temperature := temperature;
         Db.battery := battery; Db.motor_rpm := motor_rpm;
         Db.status := status; Db.timestamp := timestamp |})) in
  aret (Db.to_dict telemetry).

Definition generate_and_save_telemetry (robot_id : option string) (now : string) : App dict :=
  let! data := on_simulator (fun sim => RobotSimulator.generate_telemetry sim now) in
  save_telemetry (Some data) (Some (or_else robot_id self_robot_id)) now.

Definition execute_command (command : string) (robot_id : option string)
    (now : string) : App dict :=
  let rid := or_else robot_id self_robot_id in
  (* Validate command *)
  let valid_commands := ["start"; "stop"; "reset"] in
  if bool_decide (command ∉ valid_commands) then
    aret {[ "success" := VBool false;
            "message" := VStr ("Invalid command. Valid commands: "
                               ++ String.concat ", " valid_commands)%string ]}
  else
    (* Execute command on simulator *)
    let! result := on_simulator (fun sim => RobotSimulator.execute_command sim command) in
    (* Log command to database *)
    let! _ := on_db (Db.add_command (fun id =>
      {| Db.command_id := id; Db.command_robot_id := rid;
         Db.command := command; Db.executed_at := now |})) in
    aret (<[ "robot_id" := VStr rid ]> result).

End TelemetryService.

(** ** The generator loop ([backend/app.py]) *)

(** One pass through the body of [while True], at clock reading [now]. *)
Definition telemetry_generator_tick (interval : Z) (now : string) : App unit :=
  let! _ :=
    try_except_Exception
      (let! data := TelemetryService.generate_and_save_telemetry None now in
       let! _ := perform (LogDict DEBUG "Generated telemetry: " data) in
       (* Broadcast via WebSocket *)
       let! _ := broadcast_telemetry data in
       (* Check for alerts *)
       let! alerts := lift_result (check_alerts data) in
       for_each alerts (fun alert =>
         let! _ := broadcast_alert alert in
         let! message := lift_result (getitem alert "message") in
         perform (Log WARNING (VFmt "Alert: " message ""))))
      (fun cls msg =>
         perform (Log ERROR (VFmt "Error generating telemetry: " (VStr msg) ""))) in
  sleep interval.

(** The loop, for as many passes as there are clock readings. *)
Fixpoint telemetry_generator_loop (interval : Z) (clock : list string) : App unit :=
  match clock with
  | [] => aret tt
  | now :: clock =>
      let! _ := telemetry_generator_tick interval now in
      telemetry_generator_loop interval clock
  end.

Definition telemetry_generator (interval : Z) (clock : list string) : App unit :=
  let! _ := perform (Log INFO (VFmt "Starting telemetry generator with "
                               (VInt interval) "s interval")) in
  telemetry_generator_loop interval clock.

(** ** Threads *)

(** [generate_telemetry] statement by statement, for the executions in
    which several threads run on the one simulator. A frame is the point a
    call has reached together with its local variables. *)
Module Threads.

Import RobotSimulator.

Inductive frame : Type :=
  | AtTemperature
  | AtBattery (temperature : Q)
  | AtMotorRpm (temperature : Q)
  | AtDrift (temperature : Q) (battery motor_rpm : Z)
  | AtLowBattery (temperature : Q) (battery motor_rpm : Z)
  | Returned (sample : dict).

Definition statement (f : frame) (now : string) (self : t) : Rand (frame * t) :=
  match f with
  | AtTemperature =>
      let* temperature :=
        if bool_decide (_current_status self = "working") then uniform 40 TEMP_MAX
        else if bool_decide (_current_status self = "error") then uniform 50 60
        else uniform TEMP_MIN 42 in
      ret (AtBattery temperature, self)
  | AtBattery temperature =>
      let* self :=
        if _running self && bool_decide (_current_status self = "working") then
          let* u := uniform 0 (1 # 2) in
          ret (set_battery self (py_max BATTERY_MIN (_battery_level self - u)))
        else ret self in
      ret (AtMotorRpm temperature, self)
  | AtMotorRpm temperature =>
      let battery := py_int (_battery_level self) in
      let* motor_rpm :=
        if bool_decide (_current_status self = "working") then randint 1200 RPM_MAX
        else if bool_decide (_current_status self = "error") then randint 0 500
        else randint RPM_MIN 1000 in
      ret (AtDrift temperature battery motor_rpm, self)
  | AtDrift temperature battery motor_rpm =>
      let* self :=
        if _running self then
          let* r := random in
          if Qlt_le_dec r (1 # 10) then
            let* s := choice STATUS_CHOICES "" in ret (set_status self s)
          else ret self
        else ret self in
      ret (AtLowBattery temperature battery motor_rpm, self)
  | AtLowBattery temperature battery motor_rpm =>
      let* self :=
        if (battery <? 30)%Z then
          let* r := random in
          if Qlt_le_dec r (3 # 10) then ret (set_status self "error") else ret self
        else ret self in
      ret (Returned {[ "temperature" := VFloat (py_round1 temperature);
                       "battery" := VInt battery;
                       "motor_rpm" := VInt motor_rpm;
                       "status" := VStr (_current_status self);
                       "timestamp" := VStr now ]},
           self)
  | Returned sample => ret (Returned sample, self)
  end.

(** A thread of the process: a [telemetry_generator] thread, in a call of
    [generate_telemetry] or between two calls, or a request thread that
    has a command to execute. *)
Inductive thread : Type :=
  | Generator (call : option frame)
  | Request (command : string)
  | Finished.

Record config : Type := {
  shared : RobotSimulator.t;
  shared_gen : rng;
  threads : list thread;
  samples : list dict
}.

(** One move of one thread. *)
Definition move (now : string) (th : thread) (self : t) : Rand (thread * t * option dict) :=
  match th with
  | Generator None => ret (Generator (Some AtTemperature), self, None)
  | Generator (Some (Returned sample)) => ret (Generator None, self, Some sample)
  | Generator (Some f) =>
      let* r := statement f now self in ret (Generator (Some r.1), r.2, None)
  | Request command =>
      let* r := execute_command self command in ret (Finished, r.2, None)
  | Finished => ret (Finished, self, None)
  end.

(** The scheduler lets thread [i] make its next move. *)
Definition step (now : string) (c : config) (i : nat) : config :=
  match threads c !! i with
  | None => c
  | Some th =>
      let '(th', self, out, g) := move now th (shared c) (shared_gen c) in
      {| shared := self; shared_gen := g;
         threads := <[ i := th' ]> (threads c);
         samples := samples c ++ match out with Some d => [d] | None => [] end |}
  end.

Definition run (now : string) (schedule : list nat) (c : config) : config :=
  fold_left (step now) schedule c.

(** Whether a thread is inside a call of [generate_telemetry]. *)
Definition in_call (th : thread) : bool :=
  match th with
  | Generator (Some (Returned _)) => false
  | Generator (Some _) => true
  | _ => false
  end.

Definition in_flight (c : config) : nat := length (filter (fun th => in_call th = true) (threads c)).

(** [threading.Thread(target=telemetry_generator, ...).start()]. *)
Definition start_generator_thread (ths : list thread) : list thread :=
  ths ++ [Generator None].

(** The threads [create_app] leaves running. *)
Definition create_app (ths : list thread) : list thread :=
  (* Start background telemetry generator in production *)
  start_generator_thread ths.

(** The threads [run_app] leaves running when it reaches [socketio.run]. *)
Definition run_app (ths : list thread) : list thread :=
  let ths := create_app ths in
  (* Start background telemetry generator *)
  start_generator_thread ths.

End Threads.

(** * Specification-side definitions *)

(** The states of a simulator that was built by [__init__] and then only
    used through its methods. *)
Inductive reachable : RobotSimulator.t -> Prop :=
  | reachable_init g : reachable (RobotSimulator.__init__ g).1
  | reachable_start self : reachable self -> reachable (RobotSimulator.start self).2
  | reachable_stop self : reachable self -> reachable (RobotSimulator.stop self).2
  | reachable_reset self g : reachable self -> reachable (RobotSimulator.reset self g).1.2
  | reachable_generate self now g :
      reachable self -> reachable (RobotSimulator.generate_telemetry self now g).1.2
  | reachable_execute self command g :
      reachable self -> reachable (RobotSimulator.execute_command self command g).1.2.

(** A generator whose tape is 0 everywhere. *)
Definition zero_gen : rng := {| tape := fun _ => 0; cursor := 0%nat |}.

(** A generator whose fifth cell makes [random.choice] pick the last
    status of [STATUS_CHOICES]; the other cells are 0. *)
Definition drift_gen : rng :=
  {| tape := fun i => if (i =? 4)%nat then 4 else 0; cursor := 0%nat |}.

(** Whether a hub event is a subscription of the client [sid]. *)
Definition subscribes (sid : string) (e : SocketHandler.event) : Prop :=
  match e with
  | SocketHandler.Subscribe sid' _ => sid' = sid
  | _ => False
  end.

(** The alert table of the specification: condition on the temperature,
    the battery and the status of a sample, severity, category, threshold. *)
Record alert_rule : Type := {
  condition : Q -> Q -> string -> bool;
  severity : string;
  category : string;
  threshold : option Z
}.

Definition alert_rules : list alert_rule :=
  [ {| condition := fun temperature _ _ => Qgtb temperature 50;
       severity := "warning"; category := "temperature"; threshold := Some 50 |};
    {| condition := fun temperature _ _ => Qgtb temperature 55;
       severity := "critical"; category := "temperature"; threshold := Some 55 |};
    {| condition := fun _ battery _ => Qltb battery 20;
       severity := "warning"; category := "battery"; threshold := Some 20 |};
    {| condition := fun _ battery _ => Qltb battery 10;
       severity := "critical"; category := "battery"; threshold := Some 10 |};
    {| condition := fun _ _ status => bool_decide (status = "error");
       severity := "critical"; category := "status"; threshold := None |} ].

(** The rules that hold of a sample, in the order of the table. *)
Definition evaluate (temperature battery : Q) (status : string) : list alert_rule :=
  List.filter (fun r => condition r temperature battery status) alert_rules.

(** What an emitted alert says about the rule it comes from. *)
Definition alert_kind (alert : dict) : option value * option value * option value :=
  (alert !! "type", alert !! "category", alert !! "threshold").

(** The same of a rule of the table. *)
Definition rule_kind (r : alert_rule) : option value * option value * option value :=
  (Some (VStr (severity r)), Some (VStr (category r)), VInt <$> threshold r).

(** The sample of the specification's example. *)
Definition hot_sample : dict :=
  {[ "temperature" := VInt 56; "battery" := VInt 50;
     "motor_rpm" := VInt 100; "status" := VStr "working" ]}.

(** A sample of a robot in the error state. *)
Definition error_sample : dict :=
  {[ "temperature" := VInt 40; "battery" := VInt 50;
     "motor_rpm" := VInt 100; "status" := VStr "error" ]}.

(** The alert of the error status, as [check_alerts] builds it. *)
Definition status_alert : dict :=
  {[ "type" := VStr "critical";
     "category" := VStr "status";
     "message" := VStr "Robot in ERROR state";
     "value" := VStr "error" ]}.

(** The alerts of a sample whose temperature is [tv] (the number [t]) and
    whose battery is [bv] (the number [b]); [err] says whether its status
    is the error status. *)
Definition alerts_of (tv : value) (t : Q) (bv : value) (b : Q) (err : bool) : list dict :=
  (if Qgtb t 50 then
     [ {[ "type" := VStr "warning"; "category" := VStr "temperature";
          "message" := VFmt "High temperature: " tv "°C";
          "threshold" := VInt 50; "value" := tv ]} ] else [])
  ++ (if Qgtb t 55 then
     [ {[ "type" := VStr "critical"; "category" := VStr "temperature";
          "message" := VFmt "Critical temperature: " tv "°C";
          "threshold" := VInt 55; "value" := tv ]} ] else [])
  ++ (if Qltb b 20 then
     [ {[ "type" := VStr "warning"; "category" := VStr "battery";
          "message" := VFmt "Low battery: " bv "%";
          "threshold" := VInt 20; "value" := bv ]} ] else [])
  ++ (if Qltb b 10 then
     [ {[ "type" := VStr "critical"; "category" := VStr "battery";
          "message" := VFmt "Critical battery: " bv "%";
          "threshold" := VInt 10; "value" := bv ]} ] else [])
  ++ (if err then [ status_alert ] else []).

(** The field sets of the alert messages. *)
Definition full_fields : gset string :=
  {[ "type"; "category"; "message"; "threshold"; "value" ]}.
Definition fields_without_threshold : gset string :=
  {[ "type"; "category"; "message"; "value" ]}.
Definition fields_without_threshold_and_value : gset string :=
  {[ "type"; "category"; "message" ]}.

(** How often a thread slept. *)
Definition is_sleep (e : effect) : bool :=
  match e with Sleep _ => true | _ => false end.
Definition sleeps (es : list effect) : nat := length (List.filter is_sleep es).

(** The row that [save_telemetry] builds from the sample of a simulator
    left in state [self'], before the database numbers it. *)
Definition telemetry_row (rid : string) (sample_temperature : Q)
    (self' : RobotSimulator.t) (motor_rpm : Z) (now : string) (id : Z) : Db.Telemetry :=
  {| Db.id := id; Db.robot_id := rid;
     Db.temperature := sample_temperature;
     Db.battery := py_int (RobotSimulator._battery_level self');
     Db.motor_rpm := motor_rpm;
     Db.status := RobotSimulator._current_status self';
     Db.timestamp := now |}.

(** The exceptions and the results that [except Exception] stops. *)
Definition is_Exception (e : exn) : Prop :=
  match e with Exception _ _ => True | BaseException _ _ => False end.

Definition caught {A} (r : result A) : Prop :=
  match r with Ok _ => True | Raise e => is_Exception e end.

(** What the part of the loop body after the save can do: it may raise an
    [Exception], it leaves the database alone and it only logs. *)
Definition logs_only {A} (m : App A) : Prop :=
  forall w, exists r w' pre,
    m w = (r, w') /\ caught r /\ db w' = db w /\
    effects w' = effects w ++ pre /\ sleeps pre = 0%nat.

(** The process after some more effects. *)
Definition add_effects (w : World) (es : list effect) : World :=
  {| simulator := simulator w; gen := gen w; db := db w; hub := hub w;
     effects := effects w ++ es |}.

(** What the handler of the loop logs for the result of the guarded body. *)
Definition error_log (r : result unit) : list effect :=
  match r with
  | Raise (Exception _ msg) =>
      [Log ERROR (VFmt "Error generating telemetry: " (VStr msg) "")]
  | _ => []
  end.

(** A process whose database refuses every commit. *)
Definition locked_world : World :=
  {| simulator := (RobotSimulator.__init__ zero_gen).1;
     gen := (RobotSimulator.__init__ zero_gen).2;
     db := {| Db.telemetry := []; Db.commands := []; Db.commits := 0;
              Db.fault := fun _ => Some "database is locked" |};
     hub := SocketHandler.init;
     effects := [] |}.

(** A call of [generate_telemetry] that no other thread interrupts: its
    five statements one after the other. *)
Definition uninterrupted_call (now : string) (self : RobotSimulator.t)
    : Rand (Threads.frame * RobotSimulator.t) :=
  let* r := Threads.statement Threads.AtTemperature now self in
  let* r := Threads.statement r.1 now r.2 in
  let* r := Threads.statement r.1 now r.2 in
  let* r := Threads.statement r.1 now r.2 in
  Threads.statement r.1 now r.2.

(** The process while it serves: a fresh simulator, the generator thread
    that [create_app] started, and a request thread that is about to
    execute the command [start]. *)
Definition serving : Threads.config :=
  {| Threads.shared := (RobotSimulator.__init__ zero_gen).1;
     Threads.shared_gen := (RobotSimulator.__init__ zero_gen).2;
     Threads.threads := Threads.create_app [] ++ [Threads.Request "start"];
     Threads.samples := [] |}.

(** Thread 0 begins a call and draws the temperature, thread 1 executes
    [start], thread 0 completes its call and hands the sample over. *)
Definition torn_schedule : list nat := [0; 0; 1; 0; 0; 0; 0; 0]%nat.

(** Whether every sample that the threads returned is one that some call
    of [generate_telemetry] returns. *)
Definition samples_serializable (now : string) (c : Threads.config) : Prop :=
  forall sample, In sample (Threads.samples c) ->
    exists self g, (RobotSimulator.generate_telemetry self now g).1.1 = sample.

(** The sample that the call of thread 0 returns under [torn_schedule]. *)
Definition torn_sample : dict :=
  {[ "temperature" := VFloat (350 # 10);
     "battery" := VInt 70;
     "motor_rpm" := VInt 1200;
     "status" := VStr "idle";
     "timestamp" := VStr "2024-01-01T00:00:00" ]}.

(** The three statuses of the robot. *)
Definition known_status (s : string) : Prop :=
  s = "idle" \/ s = "working" \/ s = "error".

(** The fields of a telemetry sample. *)
Definition sample_fields : gset string :=
  {[ "temperature"; "battery"; "motor_rpm"; "status"; "timestamp" ]}.

(** The two alerts of [hot_sample]. *)
Definition hot_warning : dict :=
  {[ "type" := VStr "warning"; "category" := VStr "temperature";
     "message" := VFmt "High temperature: " (VInt 56) "°C";
     "threshold" := VInt 50; "value" := VInt 56 ]}.
Definition hot_critical : dict :=
  {[ "type" := VStr "critical"; "category" := VStr "temperature";
     "message" := VFmt "Critical temperature: " (VInt 56) "°C";
     "threshold" := VInt 55; "value" := VInt 56 ]}.

(** The client that sends a hub event, if the event is the request of a
    client. *)
Definition requester (e : SocketHandler.event) : option string :=
  match e with
  | SocketHandler.Connect sid
  | SocketHandler.Subscribe sid _
  | SocketHandler.Unsubscribe sid _
  | SocketHandler.Ping sid => Some sid
  | _ => None
  end.

(** What the thread of the loop logs when it broadcasts a sample on the
    hub [h], and for each alert. *)
Definition telemetry_logs (h : SocketHandler.t) : list effect :=
  if bool_decide (SocketHandler.connected_clients h ≠ ∅) then
    [ Log DEBUG (VFmt "Broadcasted telemetry to "
                   (VInt (Z.of_nat (size (SocketHandler.connected_clients h))))
                   " clients") ]
  else [].

Definition alert_logs (alert : dict) : list effect :=
  match alert !! "message" with
  | Some message =>
      [ Log INFO (VFmt "Broadcasted alert: " message "");
        Log WARNING (VFmt "Alert: " message "") ]
  | None => [ Log INFO (VFmt "Broadcasted alert: " (VStr "Unknown alert") "") ]
  end.

(** The hub after the loop published a sample and its alerts. *)
Definition published (data : dict) (alerts : list dict) (h : SocketHandler.t) : SocketHandler.t :=
  fold_left (fun h alert => SocketHandler.broadcast_alert alert h) alerts
            (SocketHandler.broadcast_telemetry data h).

(** How often a thread logged at ERROR. *)
Definition is_error_log (e : effect) : bool :=
  match e with Log ERROR _ => true | _ => false end.
Definition errors (es : list effect) : nat := length (List.filter is_error_log es).

(** How many of the [n] commits from the [k]-th on the database refuses. *)
Fixpoint refused_from (fault : nat -> option string) (k n : nat) : nat :=
  match n with
  | O => 0
  | S n => match fault k with Some _ => 1 | None => 0 end + refused_from fault (S k) n
  end%nat.

(** A process whose database accepts every commit. *)
Definition healthy_world : World :=
  {| simulator := (RobotSimulator.__init__ zero_gen).1;
     gen := (RobotSimulator.__init__ zero_gen).2;
     db := {| Db.telemetry := []; Db.commands := []; Db.commits := 0;
              Db.fault := fun _ => None |};
     hub := SocketHandler.init;
     effects := [] |}.

(** A process with one client connected, whose database accepts every
    commit. *)
Definition watched_world : World :=
  {| simulator := (RobotSimulator.__init__ zero_gen).1;
     gen := (RobotSimulator.__init__ zero_gen).2;
     db := {| Db.telemetry := []; Db.commands := []; Db.commits := 0;
              Db.fault := fun _ => None |};
     hub := SocketHandler.run [SocketHandler.Connect "c1"] SocketHandler.init;
     effects := [] |}.

(** A process whose database refuses the second commit and accepts the
    others. *)
Definition flaky_world : World :=
  {| simulator := (RobotSimulator.__init__ zero_gen).1;
     gen := (RobotSimulator.__init__ zero_gen).2;
     db := {| Db.telemetry := []; Db.commands := []; Db.commits := 0;
              Db.fault := fun k => if Nat.eqb k 1 then Some "database is locked"
                                   else None |};
     hub := SocketHandler.init;
     effects := [] |}.

(** The row that [TelemetryService.execute_command] logs. *)
Definition command_row (rid command now : string) (id : Z) : Db.Command :=
  {| Db.command_id := id; Db.command_robot_id := rid;
     Db.command := command; Db.executed_at := now |}.

(** * Properties *)

(** ** Arithmetic of the Python primitives *)

Lemma py_int_floor (q : Q) : (0 <= q)%Q -> py_int q = Qfloor q.
Proof.
  destruct q as [n d]. unfold py_int, Qle. simpl. intros H.
  apply Z.quot_div_nonneg; lia.
Qed.

Lemma py_int_bounds (lo hi : Z) (q : Q) :
  0 <= lo -> (inject_Z lo <= q <= inject_Z hi)%Q -> lo <= py_int q <= hi.
Proof.
  intros Hlo [H1 H2].
  assert (Hq : (0 <= q)%Q).
  { apply Qle_trans with (inject_Z lo); [|exact H1].
    change 0%Q with (inject_Z 0). now rewrite <- Zle_Qle. }
  rewrite (py_int_floor q Hq). split.
  - rewrite <- (Qfloor_Z lo). now apply Qfloor_resp_le.
  - rewrite <- (Qfloor_Z hi). now apply Qfloor_resp_le.
Qed.

Lemma py_max_lower (a b : Q) : (a <= py_max a b)%Q.
Proof.
  unfold py_max. destruct (Qle_bool b a) eqn:E.
  - apply Qle_refl.
  - destruct (Qlt_le_dec a b) as [H|H]; [now apply Qlt_le_weak|].
    apply Qle_bool_iff in H. congruence.
Qed.

Lemma py_max_upper (a b c : Q) : (a <= c -> b <= c -> py_max a b <= c)%Q.
Proof. unfold py_max. now destruct (Qle_bool b a). Qed.

Lemma round_half_even_bounds (lo hi : Z) (q : Q) :
  (inject_Z lo <= q <= inject_Z hi)%Q -> lo <= round_half_even q <= hi.
Proof.
  intros [H1 H2]. unfold round_half_even.
  assert (Hf1 : lo <= Qfloor q).
  { rewrite <- (Qfloor_Z lo). now apply Qfloor_resp_le. }
  assert (Hf2 : Qfloor q <= hi).
  { rewrite <- (Qfloor_Z hi). now apply Qfloor_resp_le. }
  assert (Hup : (inject_Z (Qfloor q) < q)%Q -> Qfloor q + 1 <= hi).
  { intros Hlt. assert (Hlt' : (inject_Z (Qfloor q) < inject_Z hi)%Q).
    { eapply Qlt_le_trans; eauto. }
    rewrite <- Zlt_Qlt in Hlt'. lia. }
  destruct (q - inject_Z (Qfloor q) ?= 1 # 2)%Q eqn:E.
  - apply Qeq_alt in E. destruct (Z.even (Qfloor q)); [lia|].
    split; [lia|]. apply Hup. lra.
  - lia.
  - apply Qgt_alt in E. split; [lia|]. apply Hup. lra.
Qed.

Lemma py_round1_times_10 (q : Q) :
  (py_round1 q * 10 == inject_Z (round_half_even (q * 10)))%Q.
Proof. unfold py_round1. field. Qed.

Lemma py_round1_bounds (lo hi : Z) (q : Q) :
  (inject_Z lo <= q * 10 <= inject_Z hi)%Q ->
  (inject_Z lo <= py_round1 q * 10 <= inject_Z hi)%Q.
Proof.
  intros H. rewrite py_round1_times_10.
  destruct (round_half_even_bounds lo hi (q * 10) H) as [B1 B2].
  rewrite Zle_Qle in B1, B2. now split.
Qed.

(** ** What the generator returns *)

Lemma random_range (g : rng) : (0 <= (random g).1 < 1)%Q.
Proof.
  unfold random, bind, next_raw, ret. simpl.
  pose proof (Z.mod_pos_bound (tape g (cursor g)) (2 ^ 53) ltac:(lia)) as H.
  unfold Qle, Qlt. simpl. change (Z.pos (2 ^ 53)) with (2 ^ 53). lia.
Qed.

Lemma uniform_range (a b : Q) (g : rng) :
  (a <= b)%Q -> (a <= (uniform a b g).1 <= b)%Q.
Proof.
  intros Hab. pose proof (random_range g) as [H0 H1].
  unfold uniform, bind, ret. destruct (random g) as [u g']. simpl in *.
  split; nra.
Qed.

Lemma randint_range (a b : Z) (g : rng) :
  a <= b -> a <= (randint a b g).1 <= b.
Proof.
  intros Hab. unfold randint, randbelow, bind, next_raw, ret. simpl.
  pose proof (Z.mod_pos_bound (tape g (cursor g)) (b - a + 1) ltac:(lia)). lia.
Qed.

Lemma choice_elem {A} (seq : list A) (d : A) (g : rng) :
  seq <> [] -> In (choice seq d g).1 seq.
Proof.
  intros Hne. unfold choice, randbelow, bind, next_raw, ret. simpl.
  apply nth_In.
  assert (0 < Z.of_nat (length seq)) by (destruct seq; [congruence|simpl; lia]).
  pose proof (Z.mod_pos_bound (tape g (cursor g)) (Z.of_nat (length seq)) ltac:(lia)).
  lia.
Qed.

(** One case split or one draw of [generate_telemetry], outermost first;
    every draw comes with the range of the library call. *)
Ltac draw_step :=
  match goal with
  | |- context [uniform ?a ?b ?g] =>
      let H := fresh "Hu" in
      let x := fresh "u" in
      let g' := fresh "g" in
      pose proof (uniform_range a b g
                    ltac:(unfold RobotSimulator.TEMP_MIN, RobotSimulator.TEMP_MAX, Qle; simpl; lia)) as H;
      destruct (uniform a b g) as [x g']; cbn [fst snd] in H
  | |- context [randint ?a ?b ?g] =>
      let H := fresh "Hn" in
      let x := fresh "n" in
      let g' := fresh "g" in
      pose proof (randint_range a b g ltac:(unfold RobotSimulator.RPM_MIN, RobotSimulator.RPM_MAX; lia)) as H;
      destruct (randint a b g) as [x g']; cbn [fst snd] in H
  | |- context [random ?g] =>
      let x := fresh "r" in
      let g' := fresh "g" in
      destruct (random g) as [x g']
  | |- context [choice ?l ?d ?g] =>
      let H := fresh "Hc" in
      let x := fresh "s" in
      let g' := fresh "g" in
      pose proof (choice_elem l d g ltac:(discriminate)) as H;
      destruct (choice l d g) as [x g']; cbn [fst snd] in H
  | |- context [if bool_decide ?P then _ else _] =>
      let H := fresh "Hd" in
      destruct (bool_decide_reflect P) as [H|H]
  | |- context [RobotSimulator._running ?s && _] =>
      let H := fresh "Hr" in
      destruct (RobotSimulator._running s) eqn:H
  | |- context [if RobotSimulator._running ?s then _ else _] =>
      let H := fresh "Hr" in
      destruct (RobotSimulator._running s) eqn:H
  | |- context [if Qlt_le_dec ?a ?b then _ else _] =>
      destruct (Qlt_le_dec a b)
  | |- context [if (?a <? ?b)%Z then _ else _] =>
      let H := fresh "Hlt" in
      destruct (Z.ltb_spec a b) as [H|H]
  end;
  cbn [fst snd RobotSimulator.set_status RobotSimulator.set_battery
       RobotSimulator._running RobotSimulator._current_status
       RobotSimulator._battery_level andb].

(** ** The simulator *)

Section Simulator.

Import RobotSimulator.

(** The shape of every result of [generate_telemetry]: the sample is built
    from a temperature and a motor speed drawn for the status at entry, and
    from the battery level and the status of the state it leaves. *)
Lemma generate_telemetry_spec (self : t) (now : string) (g : rng) :
  exists temperature motor_rpm self' g',
    generate_telemetry self now g =
      ({[ "temperature" := VFloat (py_round1 temperature);
          "battery" := VInt (py_int (_battery_level self'));
          "motor_rpm" := VInt motor_rpm;
          "status" := VStr (_current_status self');
          "timestamp" := VStr now ]}, self', g')
    /\ _running self' = _running self
    /\ (if bool_decide (_current_status self = "working") then
          (40 <= temperature <= 55)%Q /\ 1200 <= motor_rpm <= 1800
        else if bool_decide (_current_status self = "error") then
          (50 <= temperature <= 60)%Q /\ 0 <= motor_rpm <= 500
        else (35 <= temperature <= 42)%Q /\ 800 <= motor_rpm <= 1000)
    /\ (_battery_level self' = _battery_level self \/
        exists u, (0 <= u <= 1 # 2)%Q /\
                  _battery_level self' = py_max BATTERY_MIN (_battery_level self - u))
    /\ (_current_status self' = _current_status self \/
        In (_current_status self') STATUS_CHOICES).
Proof.
  unfold generate_telemetry, bind, ret.
  repeat draw_step.
  all: match goal with
       | |- exists _ _ _ _, (_, ?s, ?g') = _ /\ _ =>
           eexists; eexists; exists s, g'; split; [reflexivity|]
       end.
  all: cbn [fst snd set_status set_battery _running _current_status _battery_level].
  all: repeat match goal with
       | |- context [bool_decide ?P] => rewrite (bool_decide_eq_true_2 P) by assumption
       | |- context [bool_decide ?P] => rewrite (bool_decide_eq_false_2 P) by assumption
       end.
  all: try congruence.
  all: unfold TEMP_MIN, TEMP_MAX, RPM_MIN, RPM_MAX in *.
  all: split; [first [reflexivity | assumption]|]; split; [tauto|].
  all: split; [solve [left; reflexivity
                     | right; eexists; split; [eassumption | reflexivity]]|].
  all: solve [left; reflexivity | right; assumption | right; simpl; tauto].
Qed.

(** [execute_command] by cases on the command. *)
Lemma execute_command_cases (self : t) (command : string) (g : rng) :
  execute_command self command g =
    if bool_decide (command = "start") then (start self, g)
    else if bool_decide (command = "stop") then (stop self, g)
    else if bool_decide (command = "reset") then reset self g
    else ({[ "success" := VBool false;
             "message" := VStr ("Unknown command: " ++ command)%string ]},
          self, g).
Proof.
  unfold execute_command.
  repeat case_bool_decide; subst; try reflexivity.
  by rewrite !lookup_insert_ne, lookup_singleton_ne.
Qed.

Lemma fresh_battery (g : rng) :
  (70 <= inject_Z (randint 70 100 g).1 <= 100)%Q.
Proof.
  pose proof (randint_range 70 100 g ltac:(lia)) as [H1 H2].
  rewrite Zle_Qle in H1, H2. split; assumption.
Qed.

Lemma reachable_battery (self : t) :
  reachable self -> (20 <= _battery_level self <= 100)%Q.
Proof.
  assert (Hreset : forall s g, (20 <= _battery_level (reset s g).1.2 <= 100)%Q).
  { intros s g. pose proof (fresh_battery g) as H. unfold reset, bind, ret.
    destruct (randint 70 100 g) as [b g']. simpl in *. lra. }
  induction 1 as [g|self _ IH|self _ IH|self g _ IH|self now g _ IH|self c g _ IH].
  - pose proof (fresh_battery g) as H. unfold __init__, bind, ret.
    destruct (randint 70 100 g) as [b g']. simpl in *. lra.
  - exact IH.
  - exact IH.
  - apply Hreset.
  - destruct (generate_telemetry_spec self now g)
      as (temp & rpm & self' & g' & -> & _ & _ & Hlevel & _).
    cbn [fst snd]. destruct Hlevel as [->|(u & Hu & ->)]; [exact IH|].
    split.
    + apply py_max_lower.
    + apply py_max_upper; unfold BATTERY_MIN; lra.
  - rewrite execute_command_cases.
    repeat case_bool_decide; try exact IH. apply Hreset.
Qed.

End Simulator.

(** ** The alert evaluator *)

Lemma check_alerts_numeric (d : dict) (t b : Q) :
  as_number (get d "temperature" (VInt 0)) = Some t ->
  as_number (get d "battery" (VInt 100)) = Some b ->
  check_alerts d =
    Ok (alerts_of (get d "temperature" (VInt 0)) t (get d "battery" (VInt 100)) b
                  (py_eq (get d "status" VNone) (VStr "error"))).
Proof.
  intros Ht Hb. unfold check_alerts, py_gt, py_lt, alerts_of, Qgtb, Qltb.
  rewrite Ht, Hb. cbn [rbind].
  assert (Hkt : (50 < t)%Q -> getitem d "temperature" = Ok (get d "temperature" (VInt 0))).
  { unfold getitem, get in *. destruct (d !! "temperature"); [reflexivity|].
    injection Ht as <-. intros H. exfalso. revert H. apply Qle_not_lt. discriminate. }
  assert (Hkb : (b < 20)%Q -> getitem d "battery" = Ok (get d "battery" (VInt 100))).
  { unfold getitem, get in *. destruct (d !! "battery"); [reflexivity|].
    injection Hb as <-. intros H. exfalso. revert H. apply Qle_not_lt. discriminate. }
  destruct (Qlt_le_dec 50 t) as [H50|H50], (Qlt_le_dec 55 t) as [H55|H55],
    (Qlt_le_dec b 20) as [H20|H20], (Qlt_le_dec b 10) as [H10|H10];
    try (exfalso; lra);
    rewrite ?Hkt, ?Hkb by lra; cbn [rbind];
    destruct (py_eq (get d "status" VNone) (VStr "error")); reflexivity.
Qed.

Lemma check_alerts_ok (d : dict) (alerts : list dict) :
  check_alerts d = Ok alerts ->
  exists t b, as_number (get d "temperature" (VInt 0)) = Some t /\
              as_number (get d "battery" (VInt 100)) = Some b.
Proof.
  unfold check_alerts, py_gt, py_lt.
  destruct (as_number (get d "temperature" (VInt 0))) as [t|]; [|discriminate].
  destruct (as_number (get d "battery" (VInt 100))) as [b|]; [eauto|].
  cbn [rbind].
  repeat (cbn [rbind];
          match goal with
          | |- context [if ?c then _ else _] => destruct c
          | |- context [getitem ?d ?k] => destruct (getitem d k)
          end); cbn [rbind]; discriminate.
Qed.

Lemma alerts_of_kinds (tv bv : value) (t b : Q) (s : string) :
  map alert_kind (alerts_of tv t bv b (bool_decide (s = "error")))
  = map rule_kind (evaluate t b s).
Proof.
  unfold alerts_of, evaluate, alert_rules. cbn [List.filter condition].
  destruct (Qgtb t 50), (Qgtb t 55), (Qltb b 20), (Qltb b 10),
    (bool_decide (s = "error")); reflexivity.
Qed.

(** C3. For every telemetry sample (a dictionary whose temperature and
    battery are numbers and whose status is a string), [check_alerts]
    returns, without raising, exactly the alerts of the rules of the
    specification's table that hold of the sample, in the order of the
    table (temperature rules, battery rules, status rule); and the sample
    [{temperature: 56, battery: 50, motor_rpm: 100, status: "working"}]
    yields exactly the warning/temperature alert at threshold 50 followed by
    the critical/temperature alert at threshold 55. *)
Theorem check_alerts_follows_rule_table (d : dict) (tv bv : value) (t b : Q) (s : string) :
  d !! "temperature" = Some tv -> as_number tv = Some t ->
  d !! "battery" = Some bv -> as_number bv = Some b ->
  d !! "status" = Some (VStr s) ->
  (exists alerts,
      check_alerts d = Ok alerts /\
      map alert_kind alerts = map rule_kind (evaluate t b s)) /\
  check_alerts hot_sample =
    Ok [ {[ "type" := VStr "warning"; "category" := VStr "temperature";
            "message" := VFmt "High temperature: " (VInt 56) "°C";
            "threshold" := VInt 50; "value" := VInt 56 ]};
         {[ "type" := VStr "critical"; "category" := VStr "temperature";
            "message" := VFmt "Critical temperature: " (VInt 56) "°C";
            "threshold" := VInt 55; "value" := VInt 56 ]} ].
Proof.
  intros Htv Ht Hbv Hb Hs. split; [|vm_compute; reflexivity].
  eexists. split.
  - apply (check_alerts_numeric d t b); unfold get; rewrite ?Htv, ?Hbv; assumption.
  - unfold get. rewrite Htv, Hbv, Hs.
    change (py_eq (VStr s) (VStr "error")) with (bool_decide (s = "error")).
    apply alerts_of_kinds.
Qed.

Lemma check_alerts_follows_rule_table_witness :
  (exists alerts,
      check_alerts hot_sample = Ok alerts /\
      map alert_kind alerts = map rule_kind (evaluate 56 50 "working")) /\
  check_alerts hot_sample =
    Ok [ {[ "type" := VStr "warning"; "category" := VStr "temperature";
            "message" := VFmt "High temperature: " (VInt 56) "°C";
            "threshold" := VInt 50; "value" := VInt 56 ]};
         {[ "type" := VStr "critical"; "category" := VStr "temperature";
            "message" := VFmt "Critical temperature: " (VInt 56) "°C";
            "threshold" := VInt 55; "value" := VInt 56 ]} ].
Proof.
  apply (check_alerts_follows_rule_table hot_sample (VInt 56) (VInt 50) 56 50 "working");
    reflexivity.
Defined.

Lemma alerts_of_fields (tv bv : value) (t b : Q) (err : bool) (a : dict) :
  In a (alerts_of tv t bv b err) ->
  (a = status_alert /\ dom a = fields_without_threshold) \/
  (a !! "category" <> Some (VStr "status") /\ dom a = full_fields).
Proof.
  unfold alerts_of. rewrite !in_app_iff.
  intros [H|[H|[H|[H|H]]]];
    match type of H with In _ (if ?c then _ else _) => destruct c end;
    simpl in H; try contradiction; destruct H as [<-|[]].
  all: first [ left; split; [reflexivity | vm_compute; reflexivity]
             | right; split; [vm_compute; discriminate | ] ].
  all: unfold full_fields; rewrite !dom_insert_L, dom_singleton_L; reflexivity.
Qed.

(** C5, as the code has it. Every alert that [check_alerts] builds, and
    that the generator loop broadcasts, has exactly the fields
    [type], [category], [message], [threshold] and [value], except the
    status-category alert, which has exactly [type], [category], [message]
    and [value]: only its [threshold] is omitted, its [value] is the string
    ["error"]. *)
Theorem alert_fields (d : dict) (alerts : list dict) (a : dict) :
  check_alerts d = Ok alerts -> In a alerts ->
  (a !! "category" = Some (VStr "status") /\
   dom a = fields_without_threshold /\ a !! "value" = Some (VStr "error")) \/
  (a !! "category" <> Some (VStr "status") /\ dom a = full_fields).
Proof.
  intros Hok Hin. destruct (check_alerts_ok d alerts Hok) as (t & b & Ht & Hb).
  rewrite (check_alerts_numeric d t b Ht Hb) in Hok. injection Hok as <-.
  destruct (alerts_of_fields _ _ _ _ _ _ Hin) as [[-> Hdom]|[Hcat Hdom]].
  - left. split; [reflexivity|]. split; [exact Hdom|reflexivity].
  - right. split; assumption.
Qed.

Lemma alert_fields_witness :
  (status_alert !! "category" = Some (VStr "status") /\
   dom status_alert = fields_without_threshold /\
   status_alert !! "value" = Some (VStr "error")) \/
  (status_alert !! "category" <> Some (VStr "status") /\
   dom status_alert = full_fields).
Proof.
  apply (alert_fields error_sample [status_alert] status_alert).
  - vm_compute. reflexivity.
  - left. reflexivity.
Defined.

(** C5, as the specification words it, fails: the status alert of a sample
    in the error state has a [value] field. *)
Lemma alert_fields_counterexample :
  check_alerts error_sample = Ok [status_alert] /\
  status_alert !! "category" = Some (VStr "status") /\
  dom status_alert <> fields_without_threshold_and_value /\
  "value" ∈ dom status_alert.
Proof.
  assert (Hvalue : "value" ∈ dom status_alert).
  { apply elem_of_dom. exists (VStr "error"). reflexivity. }
  split; [vm_compute; reflexivity|]. split; [reflexivity|].
  split; [|exact Hvalue].
  intros Heq. rewrite Heq in Hvalue. revert Hvalue.
  unfold fields_without_threshold_and_value. set_solver.
Qed.

(** ** Claims about the simulator *)

Lemma sample_lookups (t : Q) (b m : Z) (st now : string) :
  let sample : dict :=
    {[ "temperature" := VFloat t; "battery" := VInt b; "motor_rpm" := VInt m;
       "status" := VStr st; "timestamp" := VStr now ]} in
  sample !! "temperature" = Some (VFloat t) /\
  sample !! "battery" = Some (VInt b) /\
  sample !! "motor_rpm" = Some (VInt m) /\
  sample !! "status" = Some (VStr st).
Proof. repeat split. Qed.

Lemma rounded_temperature (lo hi : Z) (t : Q) :
  (inject_Z lo <= t <= inject_Z hi)%Q ->
  (inject_Z lo <= py_round1 t <= inject_Z hi)%Q.
Proof.
  intros [H1 H2].
  destruct (py_round1_bounds (lo * 10) (hi * 10) t) as [B1 B2].
  { rewrite !inject_Z_mult. change (inject_Z 10) with 10%Q. split; lra. }
  rewrite !inject_Z_mult in B1, B2. change (inject_Z 10) with 10%Q in *.
  split; lra.
Qed.

(** C1. Whatever operations a simulator went through, every sample that
    [generate_telemetry] returns has [0 <= battery <= 100] and
    [0 <= motor_rpm <= 1800], and its temperature lies in the range of the
    status the simulator had when the call began: [35, 42] for idle,
    [40, 55] for working, [50, 60] for error. *)
Theorem generated_sample_in_bounds (self : RobotSimulator.t) (now : string) (g : rng) :
  reachable self ->
  exists (temperature : Q) (battery motor_rpm : Z),
    let sample := (RobotSimulator.generate_telemetry self now g).1.1 in
    sample !! "temperature" = Some (VFloat temperature) /\
    sample !! "battery" = Some (VInt battery) /\
    sample !! "motor_rpm" = Some (VInt motor_rpm) /\
    0 <= battery <= 100 /\
    0 <= motor_rpm <= 1800 /\
    (RobotSimulator._current_status self = "idle" -> (35 <= temperature <= 42)%Q) /\
    (RobotSimulator._current_status self = "working" -> (40 <= temperature <= 55)%Q) /\
    (RobotSimulator._current_status self = "error" -> (50 <= temperature <= 60)%Q).
Proof.
  intros Hreach.
  pose proof (reachable_battery _ (reachable_generate self now g Hreach)) as Hlevel.
  destruct (generate_telemetry_spec self now g)
    as (temp & rpm & self' & g' & Heq & _ & Hranges & _ & _).
  rewrite Heq in Hlevel |- *. cbn [fst snd] in *.
  exists (py_round1 temp), (py_int (RobotSimulator._battery_level self')), rpm.
  destruct (sample_lookups (py_round1 temp) (py_int (RobotSimulator._battery_level self'))
              rpm (RobotSimulator._current_status self') now) as (-> & -> & -> & _).
  do 3 (split; [reflexivity|]).
  split.
  { destruct (py_int_bounds 20 100 (RobotSimulator._battery_level self')); [lia| |lia].
    change (inject_Z 20) with 20%Q. change (inject_Z 100) with 100%Q. exact Hlevel. }
  repeat case_bool_decide.
  - destruct Hranges as [Ht Hr]. split; [lia|].
    split; [|split]; intros Hst; try congruence;
      apply (rounded_temperature 40 55); exact Ht.
  - destruct Hranges as [Ht Hr]. split; [lia|].
    split; [|split]; intros Hst; try congruence;
      apply (rounded_temperature 50 60); exact Ht.
  - destruct Hranges as [Ht Hr]. split; [lia|].
    split; [|split]; intros Hst; try congruence;
      apply (rounded_temperature 35 42); exact Ht.
Qed.

Lemma generated_sample_in_bounds_witness :
  exists (temperature : Q) (battery motor_rpm : Z),
    let self := (RobotSimulator.start (RobotSimulator.__init__ zero_gen).1).2 in
    let sample := (RobotSimulator.generate_telemetry self "2024-01-01T00:00:00" zero_gen).1.1 in
    sample !! "temperature" = Some (VFloat temperature) /\
    sample !! "battery" = Some (VInt battery) /\
    sample !! "motor_rpm" = Some (VInt motor_rpm) /\
    0 <= battery <= 100 /\
    0 <= motor_rpm <= 1800 /\
    (RobotSimulator._current_status self = "idle" -> (35 <= temperature <= 42)%Q) /\
    (RobotSimulator._current_status self = "working" -> (40 <= temperature <= 55)%Q) /\
    (RobotSimulator._current_status self = "error" -> (50 <= temperature <= 60)%Q).
Proof.
  apply (generated_sample_in_bounds
           (RobotSimulator.start (RobotSimulator.__init__ zero_gen).1).2
           "2024-01-01T00:00:00" zero_gen).
  apply reachable_start. apply reachable_init.
Defined.

(** C2. From every state, [reset] leaves the simulator running, idle and
    with a battery level in [70, 100], and its result has [success = True]. *)
Theorem reset_postcondition (self : RobotSimulator.t) (g : rng) :
  let r := (RobotSimulator.reset self g).1 in
  RobotSimulator._running r.2 = true /\
  RobotSimulator._current_status r.2 = "idle" /\
  (70 <= RobotSimulator._battery_level r.2 <= 100)%Q /\
  r.1 !! "success" = Some (VBool true).
Proof.
  pose proof (fresh_battery g) as H.
  unfold RobotSimulator.reset, bind, ret.
  destruct (randint 70 100 g) as [b g']. cbn [fst snd] in *.
  split; [reflexivity|]. split; [reflexivity|]. split; [exact H|reflexivity].
Qed.

(** C9. The battery level of a reachable simulator is at least 20;
    hence every sample that [generate_telemetry] returns has a battery of
    at least 20, and [check_alerts] raises no battery alert, warning or
    critical, on such a sample. *)
Theorem battery_never_below_floor (self : RobotSimulator.t) (now : string) (g : rng) :
  reachable self ->
  (20 <= RobotSimulator._battery_level self)%Q /\
  exists (battery : Z) (alerts : list dict),
    let sample := (RobotSimulator.generate_telemetry self now g).1.1 in
    sample !! "battery" = Some (VInt battery) /\
    20 <= battery /\
    check_alerts sample = Ok alerts /\
    forall a, In a alerts -> a !! "category" <> Some (VStr "battery").
Proof.
  intros Hreach. split; [apply (reachable_battery self Hreach)|].
  pose proof (reachable_battery _ (reachable_generate self now g Hreach)) as Hlevel.
  destruct (generate_telemetry_spec self now g)
    as (temp & rpm & self' & g' & Heq & _ & _ & _ & _).
  rewrite Heq in Hlevel |- *. cbn [fst snd] in *.
  set (battery := py_int (RobotSimulator._battery_level self')) in *.
  assert (Hb : 20 <= battery <= 100).
  { apply py_int_bounds; [lia|].
    change (inject_Z 20) with 20%Q. change (inject_Z 100) with 100%Q. exact Hlevel. }
  destruct (sample_lookups (py_round1 temp) battery rpm
              (RobotSimulator._current_status self') now) as (Ht & Hbat & _ & Hst).
  cbv zeta in Ht, Hbat, Hst.
  exists battery. eexists. split; [exact Hbat|]. split; [lia|]. split.
  - apply (check_alerts_numeric _ (py_round1 temp) (inject_Z battery));
      unfold get; rewrite ?Ht, ?Hbat; reflexivity.
  - unfold get. rewrite Ht, Hbat, Hst. unfold alerts_of.
    assert (H20 : Qltb (inject_Z battery) 20 = false).
    { unfold Qltb. destruct (Qlt_le_dec (inject_Z battery) 20) as [H|H]; [|reflexivity].
      exfalso. change 20%Q with (inject_Z 20) in H. rewrite <- Zlt_Qlt in H. lia. }
    assert (H10 : Qltb (inject_Z battery) 10 = false).
    { unfold Qltb. destruct (Qlt_le_dec (inject_Z battery) 10) as [H|H]; [|reflexivity].
      exfalso. change 10%Q with (inject_Z 10) in H. rewrite <- Zlt_Qlt in H. lia. }
    rewrite H20, H10. intros a. rewrite !in_app_iff.
    intros [H|[H|[H|[H|H]]]];
      match type of H with In _ (if ?c then _ else _) => destruct c | _ => idtac end;
      simpl in H; try contradiction; destruct H as [<-|[]];
      vm_compute; discriminate.
Qed.

Lemma battery_never_below_floor_witness :
  (20 <= RobotSimulator._battery_level (RobotSimulator.__init__ zero_gen).1)%Q /\
  exists (battery : Z) (alerts : list dict),
    let sample :=
      (RobotSimulator.generate_telemetry (RobotSimulator.__init__ zero_gen).1
         "2024-01-01T00:00:00" zero_gen).1.1 in
    sample !! "battery" = Some (VInt battery) /\
    20 <= battery /\
    check_alerts sample = Ok alerts /\
    forall a, In a alerts -> a !! "category" <> Some (VStr "battery").
Proof.
  apply (battery_never_below_floor (RobotSimulator.__init__ zero_gen).1
           "2024-01-01T00:00:00" zero_gen).
  apply reachable_init.
Defined.

(** C10. [generate_telemetry] draws the temperature and the motor speed
    for the status held at entry, and reports in [status] the status of the
    state it leaves, after the drift; so there are runs from a fresh
    simulator whose sample reports ["error"] with a temperature in the idle
    range [35, 42], outside [50, 60], and a motor speed in the idle range
    [800, 1000], outside [0, 500]. *)
Theorem sample_status_is_post_drift :
  (forall (self : RobotSimulator.t) (now : string) (g : rng),
     exists (temperature : Q) (motor_rpm : Z),
       let r := (RobotSimulator.generate_telemetry self now g).1 in
       r.1 !! "temperature" = Some (VFloat temperature) /\
       r.1 !! "motor_rpm" = Some (VInt motor_rpm) /\
       r.1 !! "status" = Some (VStr (RobotSimulator._current_status r.2)) /\
       (RobotSimulator._current_status self = "idle" ->
          (35 <= temperature <= 42)%Q /\ 800 <= motor_rpm <= 1000) /\
       (RobotSimulator._current_status self = "working" ->
          (40 <= temperature <= 55)%Q /\ 1200 <= motor_rpm <= 1800) /\
       (RobotSimulator._current_status self = "error" ->
          (50 <= temperature <= 60)%Q /\ 0 <= motor_rpm <= 500)) /\
  (exists (self : RobotSimulator.t) (now : string) (g : rng)
          (temperature : Q) (motor_rpm : Z),
     reachable self /\
     RobotSimulator._current_status self = "idle" /\
     let sample := (RobotSimulator.generate_telemetry self now g).1.1 in
     sample !! "status" = Some (VStr "error") /\
     sample !! "temperature" = Some (VFloat temperature) /\
     sample !! "motor_rpm" = Some (VInt motor_rpm) /\
     (35 <= temperature <= 42)%Q /\ ~ (50 <= temperature <= 60)%Q /\
     800 <= motor_rpm <= 1000 /\ ~ (0 <= motor_rpm <= 500)).
Proof.
  split.
  - intros self now g.
    destruct (generate_telemetry_spec self now g)
      as (temp & rpm & self' & g' & Heq & _ & Hranges & _ & _).
    rewrite Heq. cbn [fst snd].
    exists (py_round1 temp), rpm.
    destruct (sample_lookups (py_round1 temp)
                (py_int (RobotSimulator._battery_level self')) rpm
                (RobotSimulator._current_status self') now) as (-> & _ & -> & ->).
    do 3 (split; [reflexivity|]).
    repeat case_bool_decide; destruct Hranges as [Ht Hr].
    + split; [|split]; intros Hst; try congruence.
      split; [apply (rounded_temperature 40 55); exact Ht|exact Hr].
    + split; [|split]; intros Hst; try congruence.
      split; [apply (rounded_temperature 50 60); exact Ht|exact Hr].
    + split; [|split]; intros Hst; try congruence.
      split; [apply (rounded_temperature 35 42); exact Ht|exact Hr].
  - exists (RobotSimulator.__init__ drift_gen).1, "2024-01-01T00:00:00",
      (RobotSimulator.__init__ drift_gen).2, (py_round1 35), 800.
    split; [apply reachable_init|]. split; [reflexivity|].
    cbv zeta.
    assert (Hrun :
      (RobotSimulator.generate_telemetry (RobotSimulator.__init__ drift_gen).1
         "2024-01-01T00:00:00" (RobotSimulator.__init__ drift_gen).2).1.1
      = {[ "temperature" := VFloat (py_round1 35); "battery" := VInt 70;
           "motor_rpm" := VInt 800; "status" := VStr "error";
           "timestamp" := VStr "2024-01-01T00:00:00" ]}).
    { vm_compute. reflexivity. }
    rewrite Hrun.
    split; [reflexivity|]. split; [reflexivity|]. split; [reflexivity|].
    split; [split; vm_compute; discriminate|].
    split; [intros [H _]; vm_compute in H; apply H; reflexivity|].
    split; lia.
Qed.

(** C4. A command other than ["start"], ["stop"] and ["reset"] is
    rejected by the simulator and by the service: the result has
    [success = False] and a message that says why, and nothing changes: not
    the running flag, the status or the battery level, nor the generator,
    the database or anything else of the process. *)
Theorem unknown_command_rejected (command : string) :
  command ∉ ["start"; "stop"; "reset"] ->
  (forall (self : RobotSimulator.t) (g : rng),
     let r := RobotSimulator.execute_command self command g in
     r.1.1 !! "success" = Some (VBool false) /\
     r.1.1 !! "message" = Some (VStr ("Unknown command: " ++ command)%string) /\
     r.1.2 = self /\ r.2 = g) /\
  (forall (robot_id : option string) (now : string) (w : World),
     exists result,
       TelemetryService.execute_command command robot_id now w = (Ok result, w) /\
       result !! "success" = Some (VBool false) /\
       result !! "message" =
         Some (VStr "Invalid command. Valid commands: start, stop, reset")).
Proof.
  intros Hnot. split.
  - intros self g. cbv zeta. rewrite execute_command_cases.
    assert (command <> "start" /\ command <> "stop" /\ command <> "reset")
      as (H1 & H2 & H3) by set_solver.
    rewrite !bool_decide_eq_false_2 by assumption. cbn [fst snd].
    repeat split.
  - intros robot_id now w. unfold TelemetryService.execute_command.
    rewrite bool_decide_eq_true_2 by exact Hnot.
    eexists. split; [reflexivity|]. split; reflexivity.
Qed.

Lemma unknown_command_rejected_witness :
  (forall (self : RobotSimulator.t) (g : rng),
     let r := RobotSimulator.execute_command self "launch" g in
     r.1.1 !! "success" = Some (VBool false) /\
     r.1.1 !! "message" = Some (VStr "Unknown command: launch") /\
     r.1.2 = self /\ r.2 = g) /\
  (forall (robot_id : option string) (now : string) (w : World),
     exists result,
       TelemetryService.execute_command "launch" robot_id now w = (Ok result, w) /\
       result !! "success" = Some (VBool false) /\
       result !! "message" =
         Some (VStr "Invalid command. Valid commands: start, stop, reset")).
Proof.
  apply (unknown_command_rejected "launch").
  apply not_elem_of_cons; split; [discriminate|].
  apply not_elem_of_cons; split; [discriminate|].
  apply not_elem_of_cons; split; [discriminate|].
  apply not_elem_of_nil.
Defined.

(** ** The hub *)

Section Hub.

Import SocketHandler.

Lemma received_send (h : t) (e : emission) (sid : string) :
  received (send h e) sid =
  received h sid ++ (if bool_decide (sid ∈ e.1.1) then [(e.1.2, e.2)] else []).
Proof.
  unfold received, send. cbn [sio_sent]. rewrite omap_app. f_equal.
  simpl. destruct (bool_decide (sid ∈ e.1.1)); reflexivity.
Qed.

Lemma step_tracks_clients (h : t) (e : event) :
  connected_clients h = sio_clients h ->
  connected_clients (step h e) = sio_clients (step h e).
Proof.
  intros Hinv. destruct e; cbn; rewrite ?Hinv; try reflexivity.
  unfold broadcast_telemetry. case_bool_decide; cbn; congruence.
Qed.

Lemma run_tracks_clients (events : list event) (h : t) :
  connected_clients h = sio_clients h ->
  connected_clients (run events h) = sio_clients (run events h).
Proof.
  revert h. induction events as [|e events IH]; intros h Hinv; [exact Hinv|].
  apply IH, step_tracks_clients, Hinv.
Qed.

Lemma broadcast_telemetry_sent (h : t) (d : dict) (sid : string) :
  connected_clients h = sio_clients h -> sid ∈ sio_clients h ->
  sio_sent (broadcast_telemetry d h) =
    sio_sent h ++ [ (room h "telemetry", "telemetry_update", d);
                    (sio_clients h, "telemetry_update", d) ].
Proof.
  intros Hinv Hin. unfold broadcast_telemetry.
  rewrite bool_decide_eq_true_2 by (rewrite Hinv; set_solver).
  cbn. rewrite <- app_assoc. reflexivity.
Qed.

Lemma room_join (sid name name' : string) (h : t) :
  room (join_room sid name h) name' =
  if bool_decide (name = name') then {[ sid ]} ∪ room h name else room h name'.
Proof.
  unfold room, join_room. cbn [sio_rooms]. case_bool_decide.
  - subst. by rewrite lookup_insert_eq.
  - by rewrite lookup_insert_ne.
Qed.

Lemma room_leave (sid name name' : string) (h : t) :
  room (leave_room sid name h) name' ⊆ room h name'.
Proof.
  unfold room, leave_room. cbn [sio_rooms].
  destruct (decide (name = name')) as [->|Hne].
  - rewrite lookup_insert_eq. simpl. set_solver.
  - by rewrite lookup_insert_ne.
Qed.

Lemma room_server_disconnect (sid name : string) (h : t) :
  room (server_disconnect sid h) name ⊆ room h name.
Proof.
  unfold room, server_disconnect. cbn [sio_rooms]. rewrite lookup_fmap.
  destruct (sio_rooms h !! name); simpl; set_solver.
Qed.

Lemma step_never_subscribed (sid : string) (h : t) (e : event) :
  ~ subscribes sid e ->
  (forall name, sid ∉ room h name) ->
  forall name, sid ∉ room (step h e) name.
Proof.
  intros Hno Hinv name. destruct e; cbn in *.
  - apply Hinv.
  - intros H. apply (Hinv name). eapply room_server_disconnect. exact H.
  - change (sid ∉ room (join_room sid0 (default "telemetry" (data !! "channel")) h) name).
    rewrite room_join. case_bool_decide; [|apply Hinv].
    specialize (Hinv (default "telemetry" (data !! "channel"))). set_solver.
  - intros H. apply (Hinv name). eapply room_leave. exact H.
  - apply Hinv.
  - unfold broadcast_telemetry. case_bool_decide; apply Hinv.
  - apply Hinv.
  - apply Hinv.
Qed.

Lemma run_never_subscribed (sid : string) (events : list event) (h : t) :
  Forall (fun e => ~ subscribes sid e) events ->
  (forall name, sid ∉ room h name) ->
  forall name, sid ∉ room (run events h) name.
Proof.
  revert h. induction events as [|e events IH]; intros h Hno Hinv; [exact Hinv|].
  inversion Hno; subst. apply IH; [assumption|].
  apply step_never_subscribed; assumption.
Qed.

Lemma init_rooms (sid name : string) : sid ∉ room init name.
Proof. unfold room, init. cbn. rewrite lookup_empty. set_solver. Qed.

(** C6. On a hub that went through any sequence of connections,
    subscriptions and publications, [broadcast_telemetry] emits every sample
    twice, to the room ["telemetry"] and to all clients of the server; so a
    connected client receives every sample (twice when it is in the room)
    and every alert, also when it never subscribed to any topic. *)
Theorem telemetry_reaches_every_client
    (events : list event) (sid : string) (telemetry_data alert_data : dict) :
  let h := run events init in
  sid ∈ sio_clients h ->
  sio_sent (broadcast_telemetry telemetry_data h) =
    sio_sent h ++ [ (room h "telemetry", "telemetry_update", telemetry_data);
                    (sio_clients h, "telemetry_update", telemetry_data) ] /\
  received (broadcast_telemetry telemetry_data h) sid =
    received h sid ++
      (if bool_decide (sid ∈ room h "telemetry")
       then [ ("telemetry_update", telemetry_data); ("telemetry_update", telemetry_data) ]
       else [ ("telemetry_update", telemetry_data) ]) /\
  received (broadcast_alert alert_data h) sid =
    received h sid ++ [ ("alert", alert_data) ] /\
  (Forall (fun e => ~ subscribes sid e) events ->
   (forall name, sid ∉ room h name) /\
   received (broadcast_telemetry telemetry_data h) sid =
     received h sid ++ [ ("telemetry_update", telemetry_data) ]).
Proof.
  intros h Hin.
  assert (Hinv : connected_clients h = sio_clients h)
    by (apply run_tracks_clients; reflexivity).
  assert (Hrecv : received (broadcast_telemetry telemetry_data h) sid =
    received h sid ++
      (if bool_decide (sid ∈ room h "telemetry")
       then [ ("telemetry_update", telemetry_data); ("telemetry_update", telemetry_data) ]
       else [ ("telemetry_update", telemetry_data) ])).
  { unfold broadcast_telemetry.
    rewrite bool_decide_eq_true_2 by (rewrite Hinv; set_solver).
    unfold socketio_emit, socketio_emit_room. rewrite !received_send.
    cbn [fst snd sio_clients send]. rewrite <- app_assoc. f_equal.
    rewrite (bool_decide_eq_true_2 (sid ∈ sio_clients h)) by exact Hin.
    case_bool_decide; reflexivity. }
  split; [apply (broadcast_telemetry_sent h telemetry_data sid Hinv Hin)|].
  split; [exact Hrecv|]. split.
  - unfold broadcast_alert, socketio_emit. rewrite received_send. cbn [fst snd].
    by rewrite bool_decide_eq_true_2.
  - intros Hno.
    assert (Hrooms : forall name, sid ∉ room h name).
    { apply run_never_subscribed; [exact Hno|]. intros name. apply init_rooms. }
    split; [exact Hrooms|].
    rewrite Hrecv. by rewrite bool_decide_eq_false_2.
Qed.

Lemma telemetry_reaches_every_client_witness :
  let h := run [Connect "c1"] init in
  sio_sent (broadcast_telemetry hot_sample h) =
    sio_sent h ++ [ (room h "telemetry", "telemetry_update", hot_sample);
                    (sio_clients h, "telemetry_update", hot_sample) ] /\
  received (broadcast_telemetry hot_sample h) "c1" =
    received h "c1" ++
      (if bool_decide ("c1" ∈ room h "telemetry")
       then [ ("telemetry_update", hot_sample); ("telemetry_update", hot_sample) ]
       else [ ("telemetry_update", hot_sample) ]) /\
  received (broadcast_alert status_alert h) "c1" =
    received h "c1" ++ [ ("alert", status_alert) ] /\
  (Forall (fun e => ~ subscribes "c1" e) [Connect "c1"] ->
   (forall name, "c1" ∉ room h name) /\
   received (broadcast_telemetry hot_sample h) "c1" =
     received h "c1" ++ [ ("telemetry_update", hot_sample) ]).
Proof.
  apply (telemetry_reaches_every_client [Connect "c1"] "c1" hot_sample status_alert).
  cbn. set_solver.
Defined.

End Hub.

(** ** The generator loop *)

Lemma generate_and_save_spec (now : string) (w : World) :
  exists temperature motor_rpm self' g',
    (RobotSimulator.generate_telemetry (simulator w) now (gen w)).2 = g' /\
    (RobotSimulator.generate_telemetry (simulator w) now (gen w)).1.2 = self' /\
    TelemetryService.generate_and_save_telemetry None now w =
      (let! row := on_db (Db.add_telemetry
                     (telemetry_row "robot_001" (py_round1 temperature) self' motor_rpm now)) in
       aret (Db.to_dict row))
        {| simulator := self'; gen := g'; db := db w; hub := hub w;
           effects := effects w |}.
Proof.
  destruct (generate_telemetry_spec (simulator w) now (gen w))
    as (temp & rpm & self' & g' & Heq & _).
  exists temp, rpm, self', g'. rewrite Heq. cbn [fst snd].
  split; [reflexivity|]. split; [reflexivity|].
  unfold TelemetryService.generate_and_save_telemetry, TelemetryService.save_telemetry.
  unfold abind at 1. unfold on_simulator. rewrite Heq.
  reflexivity.
Qed.

Lemma sleeps_app (xs ys : list effect) : sleeps (xs ++ ys) = (sleeps xs + sleeps ys)%nat.
Proof. unfold sleeps. rewrite List.filter_app. apply length_app. Qed.

Lemma logs_only_bind {A B} (m : App A) (k : A -> App B) :
  logs_only m -> (forall a, logs_only (k a)) -> logs_only (abind m k).
Proof.
  intros Hm Hk w. destruct (Hm w) as (r & w1 & pre1 & Heq & Hc & Hdb & Heff & Hs).
  unfold abind. rewrite Heq. destruct r as [a|e].
  - destruct (Hk a w1) as (r2 & w2 & pre2 & Heq2 & Hc2 & Hdb2 & Heff2 & Hs2).
    exists r2, w2, (pre1 ++ pre2). rewrite Heq2. split; [reflexivity|].
    split; [exact Hc2|]. split; [congruence|]. split.
    + rewrite Heff2, Heff. symmetry. apply app_assoc.
    + rewrite sleeps_app. lia.
  - exists (Raise e), w1, pre1. repeat split; assumption.
Qed.

Lemma logs_only_perform (lvl : level) (message : value) : logs_only (perform (Log lvl message)).
Proof. intros w. eexists (Ok tt), _, [Log lvl message]. repeat split. Qed.

Lemma logs_only_perform_dict (lvl : level) (pre : string) (d : dict) :
  logs_only (perform (LogDict lvl pre d)).
Proof. intros w. eexists (Ok tt), _, [LogDict lvl pre d]. repeat split. Qed.

Lemma logs_only_on_hub (f : SocketHandler.t -> SocketHandler.t) : logs_only (on_hub f).
Proof.
  intros w. eexists (Ok tt), _, []. split; [reflexivity|]. cbn.
  rewrite app_nil_r. repeat split.
Qed.

Lemma logs_only_aret (u : unit) : logs_only (aret u).
Proof.
  intros w. exists (Ok u), w, []. rewrite app_nil_r. repeat split.
Qed.

Lemma logs_only_broadcast_telemetry (d : dict) : logs_only (broadcast_telemetry d).
Proof.
  intros w. unfold broadcast_telemetry.
  assert (H : logs_only
    (let! _ := on_hub (SocketHandler.broadcast_telemetry d) in
     if bool_decide (SocketHandler.connected_clients (hub w) ≠ ∅) then
       perform (Log DEBUG (VFmt "Broadcasted telemetry to "
                  (VInt (Z.of_nat (size (SocketHandler.connected_clients (hub w)))))
                  " clients"))
     else aret tt)).
  { apply logs_only_bind; [apply logs_only_on_hub|intros _].
    case_bool_decide; [apply logs_only_perform|apply logs_only_aret]. }
  exact (H w).
Qed.

Lemma logs_only_broadcast_alert (a : dict) : logs_only (broadcast_alert a).
Proof.
  unfold broadcast_alert.
  apply logs_only_bind; [apply logs_only_on_hub|intros _]. apply logs_only_perform.
Qed.

Lemma logs_only_getitem (d : dict) (k : string) : logs_only (lift_result (getitem d k)).
Proof.
  intros w. exists (getitem d k), w, []. rewrite app_nil_r.
  repeat split. unfold getitem. destruct (d !! k); exact I.
Qed.

Lemma check_alerts_caught (d : dict) : caught (check_alerts d).
Proof.
  unfold check_alerts, py_gt, py_lt, getitem.
  repeat (cbn [rbind];
          match goal with
          | |- context [as_number ?v] => destruct (as_number v)
          | |- context [if ?c then _ else _] => destruct c
          | |- context [?d !! ?k] => destruct (d !! k)
          end); cbn [rbind]; exact I.
Qed.

Lemma logs_only_check_alerts (d : dict) : logs_only (lift_result (check_alerts d)).
Proof.
  intros w. exists (check_alerts d), w, []. rewrite app_nil_r.
  repeat split. apply check_alerts_caught.
Qed.

Lemma logs_only_for_each {A} (xs : list A) (body : A -> App unit) :
  (forall x, logs_only (body x)) -> logs_only (for_each xs body).
Proof.
  intros Hbody. induction xs as [|x xs IH].
  - intros w. exists (Ok tt), w, []. rewrite app_nil_r. repeat split.
  - cbn [for_each]. apply logs_only_bind; [apply Hbody|]. intros _. exact IH.
Qed.

(** A sleep of at most a day returns. *)
Lemma sleep_returns (interval : Z) :
  0 <= interval <= SLEEP_DAY -> sleep interval = perform (Sleep interval).
Proof.
  unfold SLEEP_DAY, sleep. intros H.
  destruct (Z.ltb_spec interval 0); [lia|].
  destruct (Z.leb_spec (2 ^ 63) (interval * 10 ^ 9)); [lia|reflexivity].
Qed.

(** The [try ... except Exception] of the loop body followed by the sleep. *)
Lemma guarded_then_sleep (interval : Z) (body : App unit) (w w1 : World) (r : result unit) :
  0 <= interval <= SLEEP_DAY ->
  body w = (r, w1) -> caught r ->
  (let! _ := try_except_Exception body
               (fun cls msg =>
                  perform (Log ERROR (VFmt "Error generating telemetry: " (VStr msg) ""))) in
   sleep interval) w
  = (Ok tt, add_effects w1 (error_log r ++ [Sleep interval])).
Proof.
  intros Hint Hbody Hc. rewrite (sleep_returns interval Hint).
  unfold abind, try_except_Exception. rewrite Hbody.
  destruct r as [[]|[cls msg|cls msg]]; [| |destruct Hc].
  - unfold perform, add_effects. reflexivity.
  - unfold perform, add_effects. cbn. rewrite <- app_assoc. reflexivity.
Qed.

Lemma tick_spec (interval : Z) (now : string) (w : World) :
  0 <= interval <= SLEEP_DAY ->
  exists r w1 pre,
    telemetry_generator_tick interval now w =
      (Ok tt, add_effects w1 (pre ++ error_log r ++ [Sleep interval])) /\
    sleeps pre = 0%nat /\
    effects w1 = effects w /\
    Db.commits (db w1) = S (Db.commits (db w)) /\
    Db.fault (db w1) = Db.fault (db w) /\
    match Db.fault (db w) (Db.commits (db w)) with
    | Some msg => r = Raise (Exception "SQLAlchemyError" msg) /\ pre = [] /\
                  Db.telemetry (db w1) = Db.telemetry (db w)
    | None => length (Db.telemetry (db w1)) = S (length (Db.telemetry (db w)))
    end.
Proof.
  intros Hint.
  destruct (generate_and_save_spec now w) as (temp & rpm & self' & g' & _ & _ & Hgs).
  unfold telemetry_generator_tick.
  match goal with |- context [try_except_Exception ?b ?h] => set (body := b) end.
  assert (Hrest : forall data, logs_only
    (let! _ := perform (LogDict DEBUG "Generated telemetry: " data) in
     let! _ := broadcast_telemetry data in
     let! alerts := lift_result (check_alerts data) in
     for_each alerts (fun alert =>
       let! _ := broadcast_alert alert in
       let! message := lift_result (getitem alert "message") in
       perform (Log WARNING (VFmt "Alert: " message ""))))).
  { intros data.
    apply logs_only_bind; [apply logs_only_perform_dict|intros _].
    apply logs_only_bind; [apply logs_only_broadcast_telemetry|intros _].
    apply logs_only_bind; [apply logs_only_check_alerts|intros alerts].
    apply logs_only_for_each. intros alert.
    apply logs_only_bind; [apply logs_only_broadcast_alert|intros _].
    apply logs_only_bind; [apply logs_only_getitem|intros message].
    apply logs_only_perform. }
  destruct (Db.fault (db w) (Db.commits (db w))) as [msg|] eqn:Hfault.
  - eexists (Raise (Exception "SQLAlchemyError" msg)), _, [].
    split.
    + apply guarded_then_sleep; [exact Hint| |exact I].
      unfold body, abind at 1. rewrite Hgs.
      unfold abind, on_db, Db.add_telemetry. cbn [db]. rewrite Hfault. reflexivity.
    + cbn. repeat split.
  - set (row := telemetry_row "robot_001" (py_round1 temp) self' rpm now
                  (Db.next_id (Db.telemetry (db w)))).
    set (w1 := {| simulator := self'; gen := g';
                  db := {| Db.telemetry := Db.telemetry (db w) ++ [row];
                           Db.commands := Db.commands (db w);
                           Db.commits := S (Db.commits (db w));
                           Db.fault := Db.fault (db w) |};
                  hub := hub w; effects := effects w |}).
    destruct (Hrest (Db.to_dict row) w1) as (r & w2 & pre & Heq & Hc & Hdb & Heff & Hs).
    exists r, {| simulator := simulator w2; gen := gen w2; db := db w2; hub := hub w2;
                effects := effects w |}, pre.
    split.
    + rewrite (guarded_then_sleep interval body w w2 r Hint); [| |exact Hc].
      * unfold add_effects. cbn. rewrite Heff. cbn. rewrite <- app_assoc. reflexivity.
      * unfold body, abind at 1. rewrite Hgs.
        unfold abind at 1, on_db, Db.add_telemetry. cbn [db]. rewrite Hfault.
        unfold aret. exact Heq.
    + cbn. rewrite Hdb. cbn. rewrite length_app. cbn. repeat split; lia.
Qed.

Lemma loop_spec (interval : Z) (clock : list string) (w : World) :
  0 <= interval <= SLEEP_DAY ->
  exists w',
    telemetry_generator_loop interval clock w = (Ok tt, w') /\
    sleeps (effects w') = (sleeps (effects w) + length clock)%nat /\
    Db.commits (db w') = (Db.commits (db w) + length clock)%nat.
Proof.
  intros Hint. revert w. induction clock as [|now clock IH]; intros w.
  - exists w. cbn. split; [reflexivity|]. split; lia.
  - destruct (tick_spec interval now w Hint)
      as (r & w1 & pre & Htick & Hs & Heff & Hcommits & _).
    destruct (IH (add_effects w1 (pre ++ error_log r ++ [Sleep interval])))
      as (w' & Hloop & Hsleeps & Hc).
    exists w'. cbn [telemetry_generator_loop]. unfold abind at 1. rewrite Htick.
    split; [exact Hloop|].
    rewrite Hsleeps, Hc. cbn [add_effects effects db]. rewrite Heff, Hcommits.
    rewrite !sleeps_app, Hs.
    assert (sleeps (error_log r) = 0%nat) as ->.
    { destruct r as [|[]]; reflexivity. }
    cbn. split; lia.
Qed.

Theorem generator_loop_swallows_failures
    (interval : Z) (now : string) (clock : list string) (w : World) (msg : string) :
  0 <= interval <= SLEEP_DAY ->
  Db.fault (db w) (Db.commits (db w)) = Some msg ->
  (exists w',
     telemetry_generator_tick interval now w = (Ok tt, w') /\
     effects w' = effects w ++
       [ Log ERROR (VFmt "Error generating telemetry: " (VStr msg) "");
         Sleep interval ] /\
     Db.telemetry (db w') = Db.telemetry (db w)) /\
  (exists w',
     telemetry_generator_loop interval (now :: clock) w = (Ok tt, w') /\
     sleeps (effects w') = (sleeps (effects w) + S (length clock))%nat /\
     Db.commits (db w') = (Db.commits (db w) + S (length clock))%nat).
Proof.
  intros Hint Hfault. split; [|apply loop_spec; exact Hint].
  destruct (tick_spec interval now w Hint)
    as (r & w1 & pre & Htick & _ & Heff & _ & _ & Hcase).
  rewrite Hfault in Hcase. destruct Hcase as (-> & -> & Hrows).
  eexists. split; [exact Htick|]. cbn. rewrite Heff. split; [reflexivity|exact Hrows].
Qed.

Lemma generator_loop_swallows_failures_witness :
  (exists w',
     telemetry_generator_tick 2 "2024-01-01T00:00:00" locked_world = (Ok tt, w') /\
     effects w' = effects locked_world ++
       [ Log ERROR (VFmt "Error generating telemetry: " (VStr "database is locked") "");
         Sleep 2 ] /\
     Db.telemetry (db w') = Db.telemetry (db locked_world)) /\
  (exists w',
     telemetry_generator_loop 2
       ("2024-01-01T00:00:00" :: ["2024-01-01T00:00:02"; "2024-01-01T00:00:04"])
       locked_world = (Ok tt, w') /\
     sleeps (effects w') = (sleeps (effects locked_world) + 3)%nat /\
     Db.commits (db w') = (Db.commits (db locked_world) + 3)%nat).
Proof.
  apply (generator_loop_swallows_failures 2 "2024-01-01T00:00:00"
           ["2024-01-01T00:00:02"; "2024-01-01T00:00:04"] locked_world
           "database is locked").
  - unfold SLEEP_DAY. lia.
  - reflexivity.
Defined.

(** ** Threads on the one simulator *)

(** As [draw_step], but every draw and every test is remembered, so
    that the second of two copies of a computation takes the same branch. *)
Ltac replay_step :=
  match goal with
  | E : ?m = _ |- context [?m] => rewrite E
  | |- context [uniform ?a ?b ?g] => destruct (uniform a b g) as [? ?] eqn:?
  | |- context [randint ?a ?b ?g] => destruct (randint a b g) as [? ?] eqn:?
  | |- context [random ?g] => destruct (random g) as [? ?] eqn:?
  | |- context [choice ?l ?d ?g] => destruct (choice l d g) as [? ?] eqn:?
  | |- context [bool_decide ?P] => destruct (bool_decide P) eqn:?
  | |- context [RobotSimulator._running ?s] =>
      is_var s; destruct (RobotSimulator._running s) eqn:?
  | |- context [if Qlt_le_dec ?a ?b then _ else _] => destruct (Qlt_le_dec a b) eqn:?
  | |- context [(?a <? ?b)%Z] => destruct (a <? b)%Z eqn:?
  end;
  cbn [fst snd Threads.statement RobotSimulator.set_status RobotSimulator.set_battery
       RobotSimulator._running RobotSimulator._current_status
       RobotSimulator._battery_level andb];
  unfold bind, ret.

Lemma uninterrupted_call_is_generate_telemetry
    (now : string) (self : RobotSimulator.t) (g : rng) :
  uninterrupted_call now self g =
    let r := RobotSimulator.generate_telemetry self now g in
    (Threads.Returned r.1.1, r.1.2, r.2).
Proof.
  cbv zeta.
  destruct (RobotSimulator.generate_telemetry self now g) as [[d s] g'] eqn:E.
  cbn [fst snd]. revert E.
  unfold uninterrupted_call, RobotSimulator.generate_telemetry.
  cbn [Threads.statement]. unfold bind, ret.
  repeat replay_step.
  all: intros E; injection E as <- <- <-; reflexivity.
Qed.

(** A call that runs uninterrupted draws the temperature and the motor
    speed for the one status it finds: no sample has a temperature below 40
    together with a motor speed of at least 1200. *)
Lemma call_sample_consistent (now : string) (self : RobotSimulator.t) (g : rng) :
  exists (temperature : Q) (motor_rpm : Z),
    let sample := (RobotSimulator.generate_telemetry self now g).1.1 in
    sample !! "temperature" = Some (VFloat temperature) /\
    sample !! "motor_rpm" = Some (VInt motor_rpm) /\
    ~ ((temperature < 40)%Q /\ 1200 <= motor_rpm).
Proof.
  destruct (generate_telemetry_spec self now g)
    as (temp & rpm & self' & g' & Heq & _ & Hranges & _ & _).
  rewrite Heq. cbn [fst snd].
  exists (py_round1 temp), rpm.
  destruct (sample_lookups (py_round1 temp)
              (py_int (RobotSimulator._battery_level self')) rpm
              (RobotSimulator._current_status self') now) as (-> & _ & -> & _).
  split; [reflexivity|]. split; [reflexivity|].
  intros [Hlow Hfast].
  repeat case_bool_decide; destruct Hranges as [Ht Hr]; try lia.
  pose proof (rounded_temperature 40 55 temp Ht) as [Hlo _].
  change (inject_Z 40) with 40%Q in Hlo. lra.
Qed.

Lemma torn_run :
  Threads.samples (Threads.run "2024-01-01T00:00:00" torn_schedule serving) = [torn_sample].
Proof. vm_compute. reflexivity. Qed.

(** C8, as the specification words it, fails: were the calls of
    [generate_telemetry] and the commands serialized on the simulator, every
    sample that the generator thread returns would be one that a call of
    [generate_telemetry] returns; under [torn_schedule] it is not. *)
Lemma serialized_samples_counterexample :
  ~ (forall schedule : list nat,
       samples_serializable "2024-01-01T00:00:00"
         (Threads.run "2024-01-01T00:00:00" schedule serving)).
Proof.
  intros H. specialize (H torn_schedule torn_sample).
  rewrite torn_run in H.
  destruct H as (self & g & Hsample); [left; reflexivity|].
  destruct (call_sample_consistent "2024-01-01T00:00:00" self g)
    as (temperature & motor_rpm & Ht & Hr & Hno).
  cbv zeta in Ht, Hr. rewrite Hsample in Ht, Hr.
  assert (temperature = (350 # 10)%Q) as -> by (vm_compute in Ht; congruence).
  assert (motor_rpm = 1200) as -> by (vm_compute in Hr; congruence).
  apply Hno. split; [reflexivity|lia].
Qed.

(** C8, as the code has it. Nothing serializes the calls of
    [generate_telemetry] and the commands on the one simulator: while the
    generator thread is inside a call, a request thread can execute a command,
    which takes effect between two statements of the call; the call then
    returns a sample with a temperature below 40 and a motor speed of at
    least 1200, a sample that no call returns when it runs uninterrupted,
    where it behaves as [generate_telemetry]. *)
Theorem commands_interleave_with_calls :
  (let before := Threads.run "2024-01-01T00:00:00" [0; 0]%nat serving in
   let after := Threads.step "2024-01-01T00:00:00" before 1 in
   Threads.in_flight before = 1%nat /\
   Threads.threads before !! 1%nat = Some (Threads.Request "start") /\
   RobotSimulator._current_status (Threads.shared before) = "idle" /\
   RobotSimulator._current_status (Threads.shared after) = "working" /\
   Threads.in_flight after = 1%nat) /\
  (exists (temperature : Q) (motor_rpm : Z),
     Threads.samples (Threads.run "2024-01-01T00:00:00" torn_schedule serving)
     = [torn_sample] /\
     torn_sample !! "temperature" = Some (VFloat temperature) /\
     torn_sample !! "motor_rpm" = Some (VInt motor_rpm) /\
     (temperature < 40)%Q /\ 1200 <= motor_rpm) /\
  (forall (now : string) (self : RobotSimulator.t) (g : rng),
     uninterrupted_call now self g =
       (let r := RobotSimulator.generate_telemetry self now g in
        (Threads.Returned r.1.1, r.1.2, r.2)) /\
     exists (temperature : Q) (motor_rpm : Z),
       let sample := (RobotSimulator.generate_telemetry self now g).1.1 in
       sample !! "temperature" = Some (VFloat temperature) /\
       sample !! "motor_rpm" = Some (VInt motor_rpm) /\
       ~ ((temperature < 40)%Q /\ 1200 <= motor_rpm)).
Proof.
  split; [|split].
  - cbv zeta. repeat split; vm_compute; reflexivity.
  - exists (350 # 10)%Q, 1200.
    split; [exact torn_run|].
    split; [reflexivity|]. split; [reflexivity|]. split; [reflexivity|lia].
  - intros now self g. split; [apply uninterrupted_call_is_generate_telemetry|].
    apply call_sample_consistent.
Qed.

(** ** More about the simulator *)

Lemma py_max_ge_r (a b : Q) : (b <= py_max a b)%Q.
Proof.
  unfold py_max. destruct (Qle_bool b a) eqn:E.
  - now apply Qle_bool_iff.
  - apply Qle_refl.
Qed.

(** X1. On a reachable simulator a call of [generate_telemetry] never raises the
    battery level, and lowers it by at most one half. *)
Theorem battery_only_drains (self : RobotSimulator.t) (now : string) (g : rng) :
  reachable self ->
  let self' := (RobotSimulator.generate_telemetry self now g).1.2 in
  (RobotSimulator._battery_level self - (1 # 2)
     <= RobotSimulator._battery_level self'
     <= RobotSimulator._battery_level self)%Q.
Proof.
  intros Hreach. pose proof (reachable_battery self Hreach) as [Hlo Hhi].
  destruct (generate_telemetry_spec self now g)
    as (temp & rpm & self' & g' & -> & _ & _ & Hlevel & _).
  cbn [fst snd]. destruct Hlevel as [->|(u & [Hu0 Hu1] & ->)]; [split; lra|].
  split.
  - eapply Qle_trans; [|apply py_max_ge_r]. lra.
  - apply py_max_upper; unfold RobotSimulator.BATTERY_MIN; lra.
Qed.

Lemma battery_only_drains_witness :
  let self := (RobotSimulator.start (RobotSimulator.__init__ zero_gen).1).2 in
  let self' := (RobotSimulator.generate_telemetry self "2024-01-01T00:00:00" zero_gen).1.2 in
  (RobotSimulator._battery_level self - (1 # 2)
     <= RobotSimulator._battery_level self'
     <= RobotSimulator._battery_level self)%Q.
Proof.
  apply (battery_only_drains
           (RobotSimulator.start (RobotSimulator.__init__ zero_gen).1).2
           "2024-01-01T00:00:00" zero_gen).
  apply reachable_start, reachable_init.
Defined.

(** X2. While the simulator is stopped, [generate_telemetry] leaves the running
    flag and the battery level as they are; the status stays, or becomes
    ["error"] when the battery reads below 30. *)
Theorem stopped_simulator_keeps_battery (self : RobotSimulator.t) (now : string) (g : rng) :
  RobotSimulator._running self = false ->
  let self' := (RobotSimulator.generate_telemetry self now g).1.2 in
  RobotSimulator._running self' = false /\
  RobotSimulator._battery_level self' = RobotSimulator._battery_level self /\
  (RobotSimulator._current_status self' = RobotSimulator._current_status self \/
   (RobotSimulator._current_status self' = "error" /\
    py_int (RobotSimulator._battery_level self) < 30)).
Proof.
  intros Hstop. cbv zeta.
  unfold RobotSimulator.generate_telemetry, bind, ret. rewrite Hstop.
  cbn [andb].
  repeat draw_step; try discriminate; cbn [fst snd].
  all: split; [first [assumption | reflexivity]|]; split; [reflexivity|].
  all: first [left; reflexivity | right; split; [reflexivity|assumption]].
Qed.

Lemma stopped_simulator_keeps_battery_witness :
  let self := (RobotSimulator.stop (RobotSimulator.__init__ zero_gen).1).2 in
  let self' := (RobotSimulator.generate_telemetry self "2024-01-01T00:00:00" zero_gen).1.2 in
  RobotSimulator._running self' = false /\
  RobotSimulator._battery_level self' = RobotSimulator._battery_level self /\
  (RobotSimulator._current_status self' = RobotSimulator._current_status self \/
   (RobotSimulator._current_status self' = "error" /\
    py_int (RobotSimulator._battery_level self) < 30)).
Proof.
  apply (stopped_simulator_keeps_battery
           (RobotSimulator.stop (RobotSimulator.__init__ zero_gen).1).2
           "2024-01-01T00:00:00" zero_gen).
  reflexivity.
Defined.

Lemma status_choices_known (s : string) :
  In s RobotSimulator.STATUS_CHOICES -> known_status s.
Proof.
  unfold RobotSimulator.STATUS_CHOICES, known_status. simpl.
  intros [<-|[<-|[<-|[<-|[<-|[]]]]]]; tauto.
Qed.

Lemma reachable_status (self : RobotSimulator.t) :
  reachable self -> known_status (RobotSimulator._current_status self).
Proof.
  induction 1 as [g|self _ IH|self _ IH|self g _ IH|self now g _ IH|self c g _ IH].
  - left. reflexivity.
  - right. left. reflexivity.
  - left. reflexivity.
  - left. reflexivity.
  - destruct (generate_telemetry_spec self now g)
      as (temp & rpm & self' & g' & -> & _ & _ & _ & Hstatus).
    cbn [fst snd]. destruct Hstatus as [->|Hin]; [exact IH|].
    apply status_choices_known, Hin.
  - rewrite execute_command_cases.
    repeat case_bool_decide; cbn [fst snd]; try exact IH.
    + right. left. reflexivity.
    + left. reflexivity.
    + left. reflexivity.
Qed.

(** X3. The status that a sample of a reachable simulator reports is one of
    ["idle"], ["working"] and ["error"]. *)
Theorem sample_status_known (self : RobotSimulator.t) (now : string) (g : rng) :
  reachable self ->
  exists s,
    (RobotSimulator.generate_telemetry self now g).1.1 !! "status" = Some (VStr s) /\
    known_status s.
Proof.
  intros Hreach.
  pose proof (reachable_status _ (reachable_generate self now g Hreach)) as Hknown.
  destruct (generate_telemetry_spec self now g)
    as (temp & rpm & self' & g' & Heq & _).
  rewrite Heq in Hknown |- *. cbn [fst snd] in *.
  exists (RobotSimulator._current_status self'). split; [reflexivity|exact Hknown].
Qed.

Lemma sample_status_known_witness :
  exists s,
    (RobotSimulator.generate_telemetry (RobotSimulator.__init__ drift_gen).1
       "2024-01-01T00:00:00" (RobotSimulator.__init__ drift_gen).2).1.1 !! "status"
      = Some (VStr s) /\
    known_status s.
Proof.
  apply (sample_status_known (RobotSimulator.__init__ drift_gen).1
           "2024-01-01T00:00:00" (RobotSimulator.__init__ drift_gen).2).
  apply reachable_init.
Defined.

(** X4. [execute_command] with ["start"], ["stop"] or ["reset"] reports success and
    does what the method of that name does: the simulator runs unless the
    command is [stop], works after [start] and idles otherwise; only [reset]
    touches the battery (a level in [70, 100]) and the generator. *)
Theorem valid_commands_succeed (command : string) (self : RobotSimulator.t) (g : rng) :
  command ∈ ["start"; "stop"; "reset"] ->
  let r := RobotSimulator.execute_command self command g in
  r.1.1 !! "success" = Some (VBool true) /\
  RobotSimulator._running r.1.2 = negb (bool_decide (command = "stop")) /\
  RobotSimulator._current_status r.1.2 =
    (if bool_decide (command = "start") then "working" else "idle") /\
  (if bool_decide (command = "reset")
   then (70 <= RobotSimulator._battery_level r.1.2 <= 100)%Q
   else RobotSimulator._battery_level r.1.2 = RobotSimulator._battery_level self
        /\ r.2 = g).
Proof.
  intros Hin. cbv zeta. rewrite execute_command_cases.
  assert (Hcases : command = "start" \/ command = "stop" \/ command = "reset")
    by set_solver.
  destruct Hcases as [-> | [-> | ->]].
  - cbn. repeat split.
  - cbn. repeat split.
  - rewrite !bool_decide_eq_false_2 by discriminate.
    rewrite !bool_decide_eq_true_2 by reflexivity.
    pose proof (fresh_battery g) as Hfresh.
    unfold RobotSimulator.reset, bind, ret.
    destruct (randint 70 100 g) as [b g']. cbn [fst snd negb] in *.
    split; [reflexivity|]. split; [reflexivity|]. split; [reflexivity|exact Hfresh].
Qed.

Lemma valid_commands_succeed_witness :
  let r := RobotSimulator.execute_command (RobotSimulator.__init__ zero_gen).1 "stop" zero_gen in
  r.1.1 !! "success" = Some (VBool true) /\
  RobotSimulator._running r.1.2 = negb (bool_decide ("stop" = "stop")) /\
  RobotSimulator._current_status r.1.2 =
    (if bool_decide ("stop" = "start") then "working" else "idle") /\
  (if bool_decide ("stop" = "reset")
   then (70 <= RobotSimulator._battery_level r.1.2 <= 100)%Q
   else RobotSimulator._battery_level r.1.2 =
          RobotSimulator._battery_level (RobotSimulator.__init__ zero_gen).1
        /\ r.2 = zero_gen).
Proof.
  apply (valid_commands_succeed "stop" (RobotSimulator.__init__ zero_gen).1 zero_gen).
  apply elem_of_cons. right. apply elem_of_cons. left. reflexivity.
Defined.

(** X5. Every sample of [generate_telemetry] has exactly the fields
    [temperature], [battery], [motor_rpm], [status] and [timestamp]; its
    timestamp is the clock reading, its battery the truncated level of the
    state the call leaves; and the call never changes the running flag. *)
Theorem sample_shape (self : RobotSimulator.t) (now : string) (g : rng) :
  let r := (RobotSimulator.generate_telemetry self now g).1 in
  dom r.1 = sample_fields /\
  r.1 !! "timestamp" = Some (VStr now) /\
  r.1 !! "battery" = Some (VInt (py_int (RobotSimulator._battery_level r.2))) /\
  RobotSimulator._running r.2 = RobotSimulator._running self.
Proof.
  destruct (generate_telemetry_spec self now g)
    as (temp & rpm & self' & g' & -> & Hrun & _).
  cbn [fst snd]. split.
  { unfold sample_fields. rewrite !dom_insert_L, dom_singleton_L. reflexivity. }
  split; [reflexivity|]. split; [reflexivity|exact Hrun].
Qed.

(** ** More about the alert evaluator *)

Lemma getitem_temperature (d : dict) (t : Q) :
  as_number (get d "temperature" (VInt 0)) = Some t -> (50 < t)%Q ->
  getitem d "temperature" = Ok (get d "temperature" (VInt 0)).
Proof.
  unfold getitem, get. destruct (d !! "temperature"); [reflexivity|].
  intros Ht. injection Ht as <-. intros H. exfalso. revert H.
  apply Qle_not_lt. discriminate.
Qed.

(** X6. [check_alerts] returns normally exactly when the temperature and the
    battery of the sample (0 and 100 when missing) are numbers; when it
    raises, it raises [TypeError], never [KeyError]. *)
Theorem check_alerts_raises_only_TypeError (d : dict) :
  ((exists alerts, check_alerts d = Ok alerts) <->
   (is_Some (as_number (get d "temperature" (VInt 0))) /\
    is_Some (as_number (get d "battery" (VInt 100))))) /\
  (forall e, check_alerts d = Raise e -> exists msg, e = Exception "TypeError" msg).
Proof.
  destruct (as_number (get d "temperature" (VInt 0))) as [t|] eqn:Ht.
  - destruct (as_number (get d "battery" (VInt 100))) as [b|] eqn:Hb.
    + rewrite (check_alerts_numeric d t b Ht Hb). split.
      * split; [intros _; split; eexists; reflexivity|intros _; eexists; reflexivity].
      * intros e H. discriminate H.
    + assert (Hraise : check_alerts d = Raise (Exception "TypeError" "'<' not supported")).
      { unfold check_alerts, py_gt, py_lt, Qgtb. rewrite Ht, Hb. cbn [rbind].
        destruct (Qlt_le_dec 50 t) as [H50|H50], (Qlt_le_dec 55 t) as [H55|H55];
          try (exfalso; lra);
          rewrite ?(getitem_temperature d t Ht) by lra; reflexivity. }
      rewrite Hraise. split.
      * split; [intros [alerts H]; discriminate H|].
        intros [_ [x Hx]]. discriminate Hx.
      * intros e H. injection H as <-. eexists. reflexivity.
  - assert (Hraise : check_alerts d = Raise (Exception "TypeError" "'>' not supported")).
    { unfold check_alerts, py_gt. rewrite Ht. reflexivity. }
    rewrite Hraise. split.
    + split; [intros [alerts H]; discriminate H|].
      intros [[x Hx] _]. discriminate Hx.
    + intros e H. injection H as <-. eexists. reflexivity.
Qed.

(** X7. A sample without [temperature], [battery] and [status] raises no
    alert: the defaults 0, 100 and [None] are below every threshold. *)
Theorem check_alerts_defaults_are_silent (d : dict) :
  d !! "temperature" = None -> d !! "battery" = None -> d !! "status" = None ->
  check_alerts d = Ok [].
Proof.
  intros Ht Hb Hs.
  rewrite (check_alerts_numeric d 0 100); unfold get; rewrite ?Ht, ?Hb, ?Hs;
    reflexivity.
Qed.

Lemma check_alerts_defaults_are_silent_witness :
  check_alerts {[ "motor_rpm" := VInt 900 ]} = Ok [].
Proof.
  apply (check_alerts_defaults_are_silent {[ "motor_rpm" := VInt 900 ]}); reflexivity.
Defined.

Lemma Qgtb_55_50 (t : Q) : Qgtb t 55 = true -> Qgtb t 50 = true.
Proof.
  unfold Qgtb. destruct (Qlt_le_dec 55 t), (Qlt_le_dec 50 t);
    try reflexivity; try discriminate. intros _. exfalso. lra.
Qed.

Lemma Qltb_10_20 (b : Q) : Qltb b 10 = true -> Qltb b 20 = true.
Proof.
  unfold Qltb. destruct (Qlt_le_dec b 10), (Qlt_le_dec b 20);
    try reflexivity; try discriminate. intros _. exfalso. lra.
Qed.

(** X8. Every critical temperature or battery alert comes with the warning
    alert of the same category and the same value, and that value is the
    one the sample has under the name of the category. *)
Theorem critical_alert_follows_warning (d : dict) (alerts : list dict) (a : dict) (c : string) :
  check_alerts d = Ok alerts -> In a alerts ->
  a !! "type" = Some (VStr "critical") ->
  a !! "category" = Some (VStr c) -> c <> "status" ->
  exists w, In w alerts /\
            w !! "type" = Some (VStr "warning") /\
            w !! "category" = Some (VStr c) /\
            w !! "value" = a !! "value" /\
            a !! "value" = d !! c.
Proof.
  intros Hok Hin Htype Hcat Hc.
  destruct (check_alerts_ok d alerts Hok) as (t & b & Ht & Hb).
  rewrite (check_alerts_numeric d t b Ht Hb) in Hok. injection Hok as <-.
  unfold alerts_of in *. rewrite !in_app_iff in Hin.
  destruct Hin as [H|[H|[H|[H|H]]]];
    match type of H with In _ (if ?c then _ else _) => destruct c eqn:Hcond end;
    simpl in H; try contradiction; destruct H as [<-|[]].
  - vm_compute in Htype. discriminate Htype.
  - rewrite (Qgtb_55_50 t Hcond).
    assert (c = "temperature") as -> by (vm_compute in Hcat; congruence).
    eexists. split; [left; reflexivity|].
    split; [reflexivity|]. split; [reflexivity|]. split; [reflexivity|].
    assert (Hlt : (50 < t)%Q).
    { pose proof (Qgtb_55_50 t Hcond) as H. unfold Qgtb in H.
      destruct (Qlt_le_dec 50 t); [assumption|discriminate]. }
    pose proof (getitem_temperature d t Ht Hlt) as Hget.
    unfold getitem, get in *. destruct (d !! "temperature"); [reflexivity|discriminate].
  - vm_compute in Htype. discriminate Htype.
  - rewrite (Qltb_10_20 b Hcond).
    assert (c = "battery") as -> by (vm_compute in Hcat; congruence).
    eexists. split.
    { apply in_or_app. right. apply in_or_app. right.
      apply in_or_app. left. left. reflexivity. }
    split; [reflexivity|]. split; [reflexivity|]. split; [reflexivity|].
    unfold get in *. destruct (d !! "battery"); [reflexivity|].
    exfalso. injection Hb as <-. unfold Qltb in Hcond.
    destruct (Qlt_le_dec 100 10) as [H|H]; [|discriminate].
    revert H. apply Qle_not_lt. discriminate.
  - exfalso. apply Hc. vm_compute in Hcat. congruence.
Qed.

Lemma critical_alert_follows_warning_witness :
  exists w : dict,
    In w [hot_warning; hot_critical] /\
    w !! "type" = Some (VStr "warning") /\
    w !! "category" = Some (VStr "temperature") /\
    w !! "value" = hot_critical !! "value" /\
    hot_critical !! "value" = hot_sample !! "temperature".
Proof.
  apply (critical_alert_follows_warning hot_sample).
  - vm_compute. reflexivity.
  - right. left. reflexivity.
  - reflexivity.
  - reflexivity.
  - discriminate.
Defined.

(** ** More about the hub *)

Section HubExtras.

Import SocketHandler.

Lemma broadcast_telemetry_received (h : t) (d : dict) (sid : string) :
  connected_clients h = sio_clients h -> sid ∈ sio_clients h ->
  received (broadcast_telemetry d h) sid =
    received h sid ++
      (if bool_decide (sid ∈ room h "telemetry")
       then [ ("telemetry_update", d); ("telemetry_update", d) ]
       else [ ("telemetry_update", d) ]).
Proof.
  intros Hinv Hin. unfold broadcast_telemetry.
  rewrite bool_decide_eq_true_2 by (rewrite Hinv; set_solver).
  unfold socketio_emit, socketio_emit_room. rewrite !received_send.
  cbn [fst snd sio_clients send]. rewrite <- app_assoc. f_equal.
  rewrite (bool_decide_eq_true_2 (sid ∈ sio_clients h)) by exact Hin.
  case_bool_decide; reflexivity.
Qed.

Lemma received_absent (h : t) (e : emission) (sid : string) :
  sid ∉ e.1.1 -> received (send h e) sid = received h sid.
Proof.
  intros Hout. rewrite received_send, bool_decide_eq_false_2 by exact Hout.
  apply app_nil_r.
Qed.

(** X9. Unsubscribing from ["telemetry"] takes a connected client out of the room
    but does not stop its telemetry: the next sample still reaches it, once,
    through the emission to all clients. *)
Theorem unsubscribe_keeps_global_telemetry
    (events : list event) (sid : string) (data : gmap string string)
    (telemetry_data : dict) :
  let h := run events init in
  sid ∈ sio_clients h ->
  default "telemetry" (data !! "channel") = "telemetry" ->
  let h' := handle_unsubscribe sid data h in
  (sid ∉ room h' "telemetry") /\
  received (broadcast_telemetry telemetry_data h') sid =
    received h' sid ++ [ ("telemetry_update", telemetry_data) ].
Proof.
  intros h Hin Hchannel h'.
  assert (Hinv : connected_clients h = sio_clients h)
    by (apply run_tracks_clients; reflexivity).
  assert (Hroom : sid ∉ room h' "telemetry").
  { unfold h', handle_unsubscribe. rewrite Hchannel.
    unfold room, emit, send, leave_room. cbn [sio_rooms].
    rewrite lookup_insert_eq. cbn. set_solver. }
  split; [exact Hroom|].
  rewrite broadcast_telemetry_received.
  - by rewrite bool_decide_eq_false_2.
  - exact Hinv.
  - exact Hin.
Qed.

Lemma unsubscribe_keeps_global_telemetry_witness :
  let h := run [Connect "c1"; Subscribe "c1" ∅] init in
  let h' := handle_unsubscribe "c1" ∅ h in
  ("c1" ∉ room h' "telemetry") /\
  received (broadcast_telemetry hot_sample h') "c1" =
    received h' "c1" ++ [ ("telemetry_update", hot_sample) ].
Proof.
  apply (unsubscribe_keeps_global_telemetry
           [Connect "c1"; Subscribe "c1" ∅] "c1" ∅ hot_sample).
  - cbn. set_solver.
  - reflexivity.
Defined.

Lemma not_the_requester (other sid : string) :
  Some other <> Some sid -> sid ∉ ({[ other ]} : gset string).
Proof. intros Hne Hin. apply Hne. f_equal. set_solver. Qed.

Lemma step_keeps_absent (h : t) (e : event) (sid : string) :
  requester e <> Some sid ->
  sid ∉ sio_clients h -> sid ∉ connected_clients h -> (forall name, sid ∉ room h name) ->
  (sid ∉ sio_clients (step h e)) /\
  (sid ∉ connected_clients (step h e)) /\
  (forall name, sid ∉ room (step h e) name) /\
  received (step h e) sid = received h sid.
Proof.
  intros Hreq Hclients Hconnected Hrooms.
  destruct e as [other|other|other data|other data|other|d|a|r]; cbn [step requester] in *.
  - pose proof (not_the_requester other sid Hreq) as Hne.
    unfold handle_connect, emit. rewrite received_absent by exact Hne.
    split; [cbn; set_solver|]. split; [cbn; set_solver|]. split; [exact Hrooms|reflexivity].
  - split; [cbn; set_solver|]. split; [cbn; set_solver|]. split; [|reflexivity].
    intros name. specialize (Hrooms name). revert Hrooms. clear.
    unfold room. cbn. rewrite lookup_fmap.
    destruct (sio_rooms h !! name); cbn; set_solver.
  - pose proof (not_the_requester other sid Hreq) as Hne.
    unfold handle_subscribe, emit. rewrite received_absent by exact Hne.
    split; [exact Hclients|]. split; [exact Hconnected|]. split; [|reflexivity].
    intros name. unfold room. cbn.
    destruct (decide (default "telemetry" (data !! "channel") = name)) as [->|Hname].
    + rewrite lookup_insert_eq. cbn.
      intros [H|H]%elem_of_union; [exact (Hne H)|exact (Hrooms _ H)].
    + rewrite lookup_insert_ne by exact Hname. apply Hrooms.
  - pose proof (not_the_requester other sid Hreq) as Hne.
    unfold handle_unsubscribe, emit. rewrite received_absent by exact Hne.
    split; [exact Hclients|]. split; [exact Hconnected|]. split; [|reflexivity].
    intros name. unfold room. cbn.
    destruct (decide (default "telemetry" (data !! "channel") = name)) as [->|Hname].
    + rewrite lookup_insert_eq. cbn.
      intros [H _]%elem_of_difference. exact (Hrooms _ H).
    + rewrite lookup_insert_ne by exact Hname. apply Hrooms.
  - pose proof (not_the_requester other sid Hreq) as Hne.
    unfold handle_ping, emit. rewrite received_absent by exact Hne.
    split; [exact Hclients|]. split; [exact Hconnected|]. split; [exact Hrooms|reflexivity].
  - unfold broadcast_telemetry. case_bool_decide; [|tauto].
    unfold socketio_emit, socketio_emit_room.
    rewrite received_absent by exact Hclients.
    rewrite received_absent by apply Hrooms.
    split; [exact Hclients|]. split; [exact Hconnected|]. split; [exact Hrooms|reflexivity].
  - unfold broadcast_alert, socketio_emit. rewrite received_absent by exact Hclients.
    split; [exact Hclients|]. split; [exact Hconnected|]. split; [exact Hrooms|reflexivity].
  - unfold broadcast_command_result, socketio_emit.
    rewrite received_absent by exact Hclients.
    split; [exact Hclients|]. split; [exact Hconnected|]. split; [exact Hrooms|reflexivity].
Qed.

(** X10. After its disconnection, and for as long as it sends no request, a
    client is in neither client set and in no room, and nothing reaches it:
    no later broadcast of telemetry, alerts or command results, and no reply
    to another client. *)
Theorem disconnected_client_receives_nothing
    (h : t) (sid : string) (events : list event) :
  Forall (fun e => requester e <> Some sid) events ->
  let h' := run events (step h (Disconnect sid)) in
  (sid ∉ sio_clients h') /\
  (sid ∉ connected_clients h') /\
  (forall name, sid ∉ room h' name) /\
  received h' sid = received h sid.
Proof.
  intros Hevents. cbv zeta.
  assert (Hstart :
    (sid ∉ sio_clients (step h (Disconnect sid))) /\
    (sid ∉ connected_clients (step h (Disconnect sid))) /\
    (forall name, sid ∉ room (step h (Disconnect sid)) name) /\
    received (step h (Disconnect sid)) sid = received h sid).
  { split; [cbn; set_solver|]. split; [cbn; set_solver|]. split; [|reflexivity].
    intros name. unfold room. cbn. rewrite lookup_fmap.
    destruct (sio_rooms h !! name); cbn; set_solver. }
  revert Hstart. generalize (step h (Disconnect sid)) as h0.
  induction Hevents as [|e events He _ IH]; intros h0 Hstart; [exact Hstart|].
  cbn [run fold_left]. apply IH.
  destruct Hstart as (H1 & H2 & H3 & H4).
  destruct (step_keeps_absent h0 e sid He H1 H2 H3) as (K1 & K2 & K3 & K4).
  split; [exact K1|]. split; [exact K2|]. split; [exact K3|congruence].
Qed.

Lemma disconnected_client_receives_nothing_witness :
  let h := run [Connect "c1"; Subscribe "c1" ∅; Connect "c2"] init in
  let h' := run [PublishTelemetry hot_sample; Subscribe "c2" ∅;
                 PublishAlert status_alert; PublishCommandResult ∅]
                (step h (Disconnect "c1")) in
  ("c1" ∉ sio_clients h') /\
  ("c1" ∉ connected_clients h') /\
  (forall name, "c1" ∉ room h' name) /\
  received h' "c1" = received h "c1".
Proof.
  apply (disconnected_client_receives_nothing
           (run [Connect "c1"; Subscribe "c1" ∅; Connect "c2"] init) "c1"
           [PublishTelemetry hot_sample; Subscribe "c2" ∅;
            PublishAlert status_alert; PublishCommandResult ∅]).
  repeat constructor; discriminate.
Defined.

(** X12. With no client connected, [broadcast_telemetry] does nothing at all,
    while [broadcast_alert] still emits, to nobody. *)
Theorem nobody_connected (events : list event) (telemetry_data alert_data : dict) :
  let h := run events init in
  sio_clients h = ∅ ->
  broadcast_telemetry telemetry_data h = h /\
  sio_sent (broadcast_alert alert_data h) = sio_sent h ++ [ (∅, "alert", alert_data) ].
Proof.
  intros h Hempty.
  assert (Hinv : connected_clients h = sio_clients h)
    by (apply run_tracks_clients; reflexivity).
  split.
  - unfold broadcast_telemetry. rewrite bool_decide_eq_false_2; [reflexivity|].
    rewrite Hinv, Hempty. intros H. apply H. reflexivity.
  - unfold broadcast_alert, socketio_emit. cbn. rewrite Hempty. reflexivity.
Qed.

Lemma nobody_connected_witness :
  let h := run [Connect "c1"; Disconnect "c1"] init in
  broadcast_telemetry hot_sample h = h /\
  sio_sent (broadcast_alert status_alert h) = sio_sent h ++ [ (∅, "alert", status_alert) ].
Proof.
  apply (nobody_connected [Connect "c1"; Disconnect "c1"] hot_sample status_alert).
  cbn. set_solver.
Defined.

(** X13. [get_connected_clients_count] is the number of clients of the server;
    a new connection raises it by one, its disconnection lowers it again,
    and connecting a client that is connected changes nothing. *)
Theorem client_count (events : list event) (sid : string) :
  let h := run events init in
  get_connected_clients_count h = size (sio_clients h) /\
  (sid ∉ sio_clients h ->
   get_connected_clients_count (step h (Connect sid)) = S (get_connected_clients_count h) /\
   get_connected_clients_count (step (step h (Connect sid)) (Disconnect sid))
     = get_connected_clients_count h) /\
  (sid ∈ sio_clients h ->
   get_connected_clients_count (step h (Connect sid)) = get_connected_clients_count h).
Proof.
  intros h.
  assert (Hinv : connected_clients h = sio_clients h)
    by (apply run_tracks_clients; reflexivity).
  unfold get_connected_clients_count. split; [by rewrite Hinv|]. split.
  - intros Hout. rewrite <- Hinv in Hout. cbn. split.
    + rewrite size_union by set_solver. by rewrite size_singleton.
    + f_equal. set_solver.
  - intros Hin. rewrite <- Hinv in Hin. cbn. f_equal. set_solver.
Qed.

End HubExtras.

(** ** More about the loop and the service *)

Lemma round_half_even_comp (p q : Q) :
  (p == q)%Q -> round_half_even p = round_half_even q.
Proof.
  intros Heq. unfold round_half_even.
  rewrite (Qfloor_comp p q Heq).
  assert (Hc : (p - inject_Z (Qfloor q) == q - inject_Z (Qfloor q))%Q) by (rewrite Heq; reflexivity).
  rewrite (Qcompare_comp _ _ Hc (1 # 2) (1 # 2) (Qeq_refl _)). reflexivity.
Qed.

Lemma round_half_even_Z (z : Z) : round_half_even (inject_Z z) = z.
Proof.
  unfold round_half_even. rewrite Qfloor_Z.
  assert (H : (inject_Z z - inject_Z z < 1 # 2)%Q) by lra.
  destruct (inject_Z z - inject_Z z ?= 1 # 2)%Q eqn:E.
  - apply Qeq_alt in E. lra.
  - reflexivity.
  - apply Qgt_alt in E. lra.
Qed.

Lemma py_round1_idempotent (q : Q) : py_round1 (py_round1 q) = py_round1 q.
Proof.
  unfold py_round1 at 1.
  rewrite (round_half_even_comp _ _ (py_round1_times_10 q)).
  rewrite round_half_even_Z. reflexivity.
Qed.

Lemma alerts_have_message (tv bv : value) (t b : Q) (err : bool) (a : dict) :
  In a (alerts_of tv t bv b err) -> is_Some (a !! "message").
Proof.
  intros Hin. apply elem_of_dom.
  destruct (alerts_of_fields tv bv t b err a Hin) as [[_ ->]|[_ ->]].
  - unfold fields_without_threshold. set_solver.
  - unfold full_fields. set_solver.
Qed.

Lemma for_each_alerts (alerts : list dict) (w : World) :
  (forall a, In a alerts -> is_Some (a !! "message")) ->
  for_each alerts (fun alert =>
       let! _ := broadcast_alert alert in
       let! message := lift_result (getitem alert "message") in
       perform (Log WARNING (VFmt "Alert: " message ""))) w
  = (Ok tt,
     {| simulator := simulator w; gen := gen w; db := db w;
        hub := fold_left (fun h alert => SocketHandler.broadcast_alert alert h)
                         alerts (hub w);
        effects := effects w ++ concat (map alert_logs alerts) |}).
Proof.
  revert w. induction alerts as [|a alerts IH]; intros w Hmsg.
  - destruct w. cbn. rewrite app_nil_r. reflexivity.
  - destruct (Hmsg a (or_introl eq_refl)) as [m Hm].
    cbn [for_each]. unfold abind at 1.
    unfold broadcast_alert, abind, on_hub, lift_result, getitem, perform, get.
    rewrite Hm.
    rewrite IH by (intros a' Ha'; apply Hmsg; right; exact Ha').
    cbn [simulator gen db hub effects fold_left map concat].
    unfold alert_logs at 2. rewrite Hm. cbn [default].
    rewrite <- !app_assoc. reflexivity.
Qed.

Lemma broadcast_telemetry_app (data : dict) (w : World) :
  broadcast_telemetry data w =
    (Ok tt,
     {| simulator := simulator w; gen := gen w; db := db w;
        hub := SocketHandler.broadcast_telemetry data (hub w);
        effects := effects w ++ telemetry_logs (hub w) |}).
Proof.
  unfold broadcast_telemetry, telemetry_logs, abind, on_hub.
  case_bool_decide; [reflexivity|].
  unfold aret. cbn. rewrite app_nil_r. reflexivity.
Qed.

(** A pass of the loop whose commit the database accepts. *)
Lemma tick_accepted (interval : Z) (now : string) (w : World) :
  0 <= interval <= SLEEP_DAY ->
  Db.fault (db w) (Db.commits (db w)) = None ->
  exists temperature motor_rpm alerts,
    let r := RobotSimulator.generate_telemetry (simulator w) now (gen w) in
    let row := telemetry_row "robot_001" (py_round1 temperature) r.1.2 motor_rpm now
                 (Db.next_id (Db.telemetry (db w))) in
    r.1.1 = {[ "temperature" := VFloat (py_round1 temperature);
               "battery" := VInt (py_int (RobotSimulator._battery_level r.1.2));
               "motor_rpm" := VInt motor_rpm;
               "status" := VStr (RobotSimulator._current_status r.1.2);
               "timestamp" := VStr now ]} /\
    check_alerts (Db.to_dict row) = Ok alerts /\
    telemetry_generator_tick interval now w =
      (Ok tt,
       {| simulator := r.1.2; gen := r.2;
          db := {| Db.telemetry := Db.telemetry (db w) ++ [row];
                   Db.commands := Db.commands (db w);
                   Db.commits := S (Db.commits (db w));
                   Db.fault := Db.fault (db w) |};
          hub := published (Db.to_dict row) alerts (hub w);
          effects := effects w
                     ++ [LogDict DEBUG "Generated telemetry: " (Db.to_dict row)]
                     ++ telemetry_logs (hub w)
                     ++ concat (map alert_logs alerts) ++ [Sleep interval] |}).
Proof.
  intros Hint Hfault.
  destruct (generate_telemetry_spec (simulator w) now (gen w))
    as (temp & rpm & self' & g' & Heq & _).
  exists temp, rpm. rewrite Heq. cbn [fst snd].
  set (row := telemetry_row "robot_001" (py_round1 temp) self' rpm now
                (Db.next_id (Db.telemetry (db w)))).
  set (t := py_round1 (py_round1 temp)).
  set (b := inject_Z (py_int (RobotSimulator._battery_level self'))).
  assert (Hcheck : check_alerts (Db.to_dict row) =
            Ok (alerts_of (VFloat t) t
                  (VInt (py_int (RobotSimulator._battery_level self'))) b
                  (py_eq (VStr (RobotSimulator._current_status self')) (VStr "error")))).
  { apply (check_alerts_numeric (Db.to_dict row) t b); reflexivity. }
  eexists. split; [reflexivity|]. split; [exact Hcheck|].
  set (w1 := {| simulator := self'; gen := g';
                db := {| Db.telemetry := Db.telemetry (db w) ++ [row];
                         Db.commands := Db.commands (db w);
                         Db.commits := S (Db.commits (db w));
                         Db.fault := Db.fault (db w) |};
                hub := hub w; effects := effects w |}).
  assert (Hsave : TelemetryService.generate_and_save_telemetry None now w
                  = (Ok (Db.to_dict row), w1)).
  { unfold TelemetryService.generate_and_save_telemetry, TelemetryService.save_telemetry.
    unfold abind at 1. unfold on_simulator. rewrite Heq.
    unfold abind, lift_result, aret, on_db, Db.add_telemetry.
    cbn [db getitem rbind]. rewrite Hfault. reflexivity. }
  unfold telemetry_generator_tick. rewrite (sleep_returns interval Hint).
  unfold abind at 1, try_except_Exception.
  unfold abind at 1. rewrite Hsave.
  unfold abind at 1, perform at 1.
  unfold abind at 1. rewrite broadcast_telemetry_app.
  unfold abind at 1, lift_result at 1. rewrite Hcheck.
  rewrite for_each_alerts by (intros a Ha; eapply alerts_have_message; exact Ha).
  unfold perform, published. cbn [simulator gen db hub effects w1].
  rewrite <- !app_assoc. reflexivity.
Qed.

(** A pass of the loop whose commit the database refuses. *)
Lemma tick_refused (interval : Z) (now : string) (w : World) (msg : string) :
  0 <= interval <= SLEEP_DAY ->
  Db.fault (db w) (Db.commits (db w)) = Some msg ->
  telemetry_generator_tick interval now w =
    (let r := RobotSimulator.generate_telemetry (simulator w) now (gen w) in
     (Ok tt,
      {| simulator := r.1.2; gen := r.2;
         db := {| Db.telemetry := Db.telemetry (db w);
                  Db.commands := Db.commands (db w);
                  Db.commits := S (Db.commits (db w));
                  Db.fault := Db.fault (db w) |};
         hub := hub w;
         effects := effects w
                    ++ [ Log ERROR (VFmt "Error generating telemetry: " (VStr msg) "");
                         Sleep interval ] |})).
Proof.
  intros Hint Hfault.
  destruct (generate_telemetry_spec (simulator w) now (gen w))
    as (temp & rpm & self' & g' & Heq & _).
  rewrite Heq. cbn [fst snd].
  set (w1 := {| simulator := self'; gen := g';
                db := {| Db.telemetry := Db.telemetry (db w);
                         Db.commands := Db.commands (db w);
                         Db.commits := S (Db.commits (db w));
                         Db.fault := Db.fault (db w) |};
                hub := hub w; effects := effects w |}).
  assert (Hsave : TelemetryService.generate_and_save_telemetry None now w
                  = (Raise (Exception "SQLAlchemyError" msg), w1)).
  { unfold TelemetryService.generate_and_save_telemetry, TelemetryService.save_telemetry.
    unfold abind at 1. unfold on_simulator. rewrite Heq.
    unfold abind, lift_result, aret, on_db, Db.add_telemetry.
    cbn [db getitem rbind]. rewrite Hfault. reflexivity. }
  unfold telemetry_generator_tick. rewrite (sleep_returns interval Hint).
  unfold abind at 1, try_except_Exception.
  unfold abind at 1. rewrite Hsave.
  unfold perform. cbn [simulator gen db hub effects w1].
  rewrite <- ?app_assoc. reflexivity.
Qed.

Lemma errors_app (xs ys : list effect) : errors (xs ++ ys) = (errors xs + errors ys)%nat.
Proof. unfold errors. rewrite List.filter_app. apply length_app. Qed.

Lemma errors_alert_logs (alerts : list dict) :
  errors (concat (map alert_logs alerts)) = 0%nat.
Proof.
  induction alerts as [|a alerts IH]; [reflexivity|].
  cbn [map concat]. rewrite errors_app, IH.
  unfold alert_logs. destruct (a !! "message"); reflexivity.
Qed.

Lemma errors_telemetry_logs (h : SocketHandler.t) : errors (telemetry_logs h) = 0%nat.
Proof. unfold telemetry_logs. case_bool_decide; reflexivity. Qed.

Lemma next_id_fresh (rows : list Db.Telemetry) :
  Forall (fun old => Db.id old < Db.next_id rows) rows.
Proof.
  unfold Db.next_id. induction rows as [|r rows IH]; constructor.
  - cbn. lia.
  - eapply Forall_impl; [exact IH|]. cbn. intros old Hold. lia.
Qed.

(** The loop, pass by pass. *)
Lemma loop_accounting (interval : Z) (clock : list string) (w : World) :
  0 <= interval <= SLEEP_DAY ->
  exists w',
    telemetry_generator_loop interval clock w = (Ok tt, w') /\
    Db.fault (db w') = Db.fault (db w) /\
    Db.commits (db w') = (Db.commits (db w) + length clock)%nat /\
    (length (Db.telemetry (db w'))
       + refused_from (Db.fault (db w)) (Db.commits (db w)) (length clock)
     = length (Db.telemetry (db w)) + length clock)%nat /\
    errors (effects w')
      = (errors (effects w)
         + refused_from (Db.fault (db w)) (Db.commits (db w)) (length clock))%nat /\
    Db.commands (db w') = Db.commands (db w) /\
    RobotSimulator._running (simulator w') = RobotSimulator._running (simulator w).
Proof.
  intros Hint. revert w. induction clock as [|now clock IH]; intros w.
  - exists w. cbn. repeat split; lia.
  - assert (Hrun : RobotSimulator._running
             (RobotSimulator.generate_telemetry (simulator w) now (gen w)).1.2
             = RobotSimulator._running (simulator w)).
    { destruct (generate_telemetry_spec (simulator w) now (gen w))
        as (temp & rpm & self' & g' & -> & Hrun & _). exact Hrun. }
    cbn [telemetry_generator_loop length refused_from]. unfold abind at 1.
    destruct (Db.fault (db w) (Db.commits (db w))) as [msg|] eqn:Hfault.
    + rewrite (tick_refused interval now w msg Hint Hfault). cbv beta iota zeta.
      match goal with |- context [telemetry_generator_loop interval clock ?w1] =>
        destruct (IH w1) as (w' & Hloop & Hf & Hc & Hrows & Herr & Hcmd & Hr) end.
      cbn [db effects simulator Db.fault Db.commits Db.telemetry Db.commands] in *.
      exists w'. split; [exact Hloop|]. split; [exact Hf|].
      rewrite errors_app in Herr. cbn in Herr.
      repeat split; try lia; congruence.
    + destruct (tick_accepted interval now w Hint Hfault)
        as (temp & rpm & alerts & _ & _ & Htick).
      cbv zeta in Htick. rewrite Htick. cbv beta iota zeta.
      match goal with |- context [telemetry_generator_loop interval clock ?w1] =>
        destruct (IH w1) as (w' & Hloop & Hf & Hc & Hrows & Herr & Hcmd & Hr) end.
      cbn [db effects simulator Db.fault Db.commits Db.telemetry Db.commands] in *.
      exists w'. split; [exact Hloop|]. split; [exact Hf|].
      rewrite length_app in Hrows. cbn [length] in Hrows.
      rewrite !errors_app, errors_alert_logs, errors_telemetry_logs in Herr. cbn in Herr.
      repeat split; try lia; congruence.
Qed.

(** The save of a generated sample that the database accepts. *)
Lemma generate_and_save_accepted (now : string) (w : World) :
  Db.fault (db w) (Db.commits (db w)) = None ->
  exists temperature motor_rpm,
    let r := RobotSimulator.generate_telemetry (simulator w) now (gen w) in
    let row := telemetry_row "robot_001" (py_round1 temperature) r.1.2 motor_rpm now
                 (Db.next_id (Db.telemetry (db w))) in
    r.1.1 = {[ "temperature" := VFloat (py_round1 temperature);
               "battery" := VInt (py_int (RobotSimulator._battery_level r.1.2));
               "motor_rpm" := VInt motor_rpm;
               "status" := VStr (RobotSimulator._current_status r.1.2);
               "timestamp" := VStr now ]} /\
    TelemetryService.generate_and_save_telemetry None now w =
      (Ok (Db.to_dict row),
       {| simulator := r.1.2; gen := r.2;
          db := {| Db.telemetry := Db.telemetry (db w) ++ [row];
                   Db.commands := Db.commands (db w);
                   Db.commits := S (Db.commits (db w));
                   Db.fault := Db.fault (db w) |};
          hub := hub w; effects := effects w |}).
Proof.
  intros Hfault.
  destruct (generate_telemetry_spec (simulator w) now (gen w))
    as (temp & rpm & self' & g' & Heq & _).
  exists temp, rpm. rewrite Heq. cbn [fst snd]. split; [reflexivity|].
  unfold TelemetryService.generate_and_save_telemetry, TelemetryService.save_telemetry.
  unfold abind at 1. unfold on_simulator. rewrite Heq.
  unfold abind, lift_result, aret, on_db, Db.add_telemetry.
  cbn [db getitem rbind]. rewrite Hfault. reflexivity.
Qed.

(** X15. A pass of the loop that sleeps up to a day and whose commit is
    accepted stores one row, broadcasts the dictionary of that row and then
    each of its alerts, and logs, in this order: the sample; the broadcast of
    the sample if a client is connected; for each alert its broadcast and
    a warning; no error. Then it sleeps. *)
Theorem accepted_pass_publishes (interval : Z) (now : string) (w : World) :
  0 <= interval <= SLEEP_DAY ->
  Db.fault (db w) (Db.commits (db w)) = None ->
  exists row alerts w',
    telemetry_generator_tick interval now w = (Ok tt, w') /\
    Db.telemetry (db w') = Db.telemetry (db w) ++ [row] /\
    check_alerts (Db.to_dict row) = Ok alerts /\
    hub w' = published (Db.to_dict row) alerts (hub w) /\
    effects w' = effects w
                 ++ [LogDict DEBUG "Generated telemetry: " (Db.to_dict row)]
                 ++ telemetry_logs (hub w)
                 ++ concat (map alert_logs alerts) ++ [Sleep interval] /\
    errors (effects w') = errors (effects w).
Proof.
  intros Hint Hfault.
  destruct (tick_accepted interval now w Hint Hfault)
    as (temp & rpm & alerts & _ & Hcheck & Htick).
  cbv zeta in Hcheck, Htick.
  eexists. exists alerts. eexists. split; [exact Htick|].
  cbn [db hub effects Db.telemetry].
  split; [reflexivity|]. split; [exact Hcheck|]. split; [reflexivity|].
  split; [reflexivity|].
  rewrite !errors_app, errors_alert_logs, errors_telemetry_logs. cbn. lia.
Qed.

Lemma accepted_pass_publishes_witness :
  exists row alerts w',
    telemetry_generator_tick 2 "2024-01-01T00:00:00" watched_world = (Ok tt, w') /\
    Db.telemetry (db w') = Db.telemetry (db watched_world) ++ [row] /\
    check_alerts (Db.to_dict row) = Ok alerts /\
    hub w' = published (Db.to_dict row) alerts (hub watched_world) /\
    effects w' = effects watched_world
                 ++ [LogDict DEBUG "Generated telemetry: " (Db.to_dict row)]
                 ++ telemetry_logs (hub watched_world)
                 ++ concat (map alert_logs alerts) ++ [Sleep 2] /\
    errors (effects w') = errors (effects watched_world).
Proof.
  apply (accepted_pass_publishes 2 "2024-01-01T00:00:00" watched_world).
  - unfold SLEEP_DAY. lia.
  - reflexivity.
Defined.

(** X16. What [generate_and_save_telemetry] returns for an accepted commit
    agrees with the generated sample on all five fields (rounding the
    temperature a second time changes nothing) and adds the robot id
    ["robot_001"] and the [id] of the row that the call appended, an id that
    no row of the table had before. *)
Theorem saved_sample_round_trip (now : string) (w : World) :
  Db.fault (db w) (Db.commits (db w)) = None ->
  let sample := (RobotSimulator.generate_telemetry (simulator w) now (gen w)).1.1 in
  exists saved row w',
    TelemetryService.generate_and_save_telemetry None now w = (Ok saved, w') /\
    Db.telemetry (db w') = Db.telemetry (db w) ++ [row] /\
    saved !! "temperature" = sample !! "temperature" /\
    saved !! "battery" = sample !! "battery" /\
    saved !! "motor_rpm" = sample !! "motor_rpm" /\
    saved !! "status" = sample !! "status" /\
    saved !! "timestamp" = sample !! "timestamp" /\
    saved !! "robot_id" = Some (VStr "robot_001") /\
    saved !! "id" = Some (VInt (Db.id row)) /\
    Forall (fun old => Db.id old <> Db.id row) (Db.telemetry (db w)).
Proof.
  intros Hfault sample.
  destruct (generate_and_save_accepted now w Hfault) as (temp & rpm & Hsample & Hsave).
  cbv zeta in Hsample, Hsave. unfold sample. rewrite Hsample.
  eexists. eexists. eexists. split; [exact Hsave|].
  cbn [db Db.telemetry]. split; [reflexivity|].
  split.
  { change (Some (VFloat (py_round1 (py_round1 temp))) = Some (VFloat (py_round1 temp))).
    rewrite py_round1_idempotent. reflexivity. }
  do 6 (split; [reflexivity|]).
  eapply Forall_impl; [apply next_id_fresh|].
  cbn. intros old Hold. lia.
Qed.

Lemma saved_sample_round_trip_witness :
  let sample := (RobotSimulator.generate_telemetry (simulator healthy_world)
                   "2024-01-01T00:00:00" (gen healthy_world)).1.1 in
  exists saved row w',
    TelemetryService.generate_and_save_telemetry None "2024-01-01T00:00:00" healthy_world
      = (Ok saved, w') /\
    Db.telemetry (db w') = Db.telemetry (db healthy_world) ++ [row] /\
    saved !! "temperature" = sample !! "temperature" /\
    saved !! "battery" = sample !! "battery" /\
    saved !! "motor_rpm" = sample !! "motor_rpm" /\
    saved !! "status" = sample !! "status" /\
    saved !! "timestamp" = sample !! "timestamp" /\
    saved !! "robot_id" = Some (VStr "robot_001") /\
    saved !! "id" = Some (VInt (Db.id row)) /\
    Forall (fun old => Db.id old <> Db.id row) (Db.telemetry (db healthy_world)).
Proof.
  apply (saved_sample_round_trip "2024-01-01T00:00:00" healthy_world). reflexivity.
Defined.

(** X17. Over any number of passes that sleep up to a day each, and whatever
    commits the database refuses, the loop stores one row per accepted
    commit and logs one error per refused commit. *)
Theorem loop_stores_accepted_passes (interval : Z) (clock : list string) (w : World) :
  0 <= interval <= SLEEP_DAY ->
  exists w',
    telemetry_generator_loop interval clock w = (Ok tt, w') /\
    (length (Db.telemetry (db w'))
       + refused_from (Db.fault (db w)) (Db.commits (db w)) (length clock)
     = length (Db.telemetry (db w)) + length clock)%nat /\
    errors (effects w')
      = (errors (effects w)
         + refused_from (Db.fault (db w)) (Db.commits (db w)) (length clock))%nat.
Proof.
  intros Hint.
  destruct (loop_accounting interval clock w Hint)
    as (w' & Hloop & _ & _ & Hrows & Herr & _).
  exists w'. split; [exact Hloop|]. split; [exact Hrows|exact Herr].
Qed.

Lemma loop_stores_accepted_passes_witness :
  exists w',
    telemetry_generator_loop 2 ["2024-01-01T00:00:00"; "2024-01-01T00:00:02"] flaky_world
      = (Ok tt, w') /\
    (length (Db.telemetry (db w'))
       + refused_from (Db.fault (db flaky_world)) (Db.commits (db flaky_world))
           (length ["2024-01-01T00:00:00"; "2024-01-01T00:00:02"])
     = length (Db.telemetry (db flaky_world))
       + length ["2024-01-01T00:00:00"; "2024-01-01T00:00:02"])%nat /\
    errors (effects w')
      = (errors (effects flaky_world)
         + refused_from (Db.fault (db flaky_world)) (Db.commits (db flaky_world))
             (length ["2024-01-01T00:00:00"; "2024-01-01T00:00:02"]))%nat.
Proof.
  apply (loop_stores_accepted_passes 2
           ["2024-01-01T00:00:00"; "2024-01-01T00:00:02"] flaky_world).
  unfold SLEEP_DAY. lia.
Defined.

(** X18. The generator loop, sleeping up to a day per pass, never changes the
    running flag of the simulator and never writes to the command table. *)
Theorem loop_leaves_commands_alone (interval : Z) (clock : list string) (w : World) :
  0 <= interval <= SLEEP_DAY ->
  exists w',
    telemetry_generator_loop interval clock w = (Ok tt, w') /\
    RobotSimulator._running (simulator w') = RobotSimulator._running (simulator w) /\
    Db.commands (db w') = Db.commands (db w) /\
    Db.fault (db w') = Db.fault (db w).
Proof.
  intros Hint.
  destruct (loop_accounting interval clock w Hint)
    as (w' & Hloop & Hf & _ & _ & _ & Hcmd & Hrun).
  exists w'. split; [exact Hloop|]. split; [exact Hrun|]. split; [exact Hcmd|exact Hf].
Qed.

Lemma loop_leaves_commands_alone_witness :
  exists w',
    telemetry_generator_loop 2 ["2024-01-01T00:00:00"; "2024-01-01T00:00:02"] healthy_world
      = (Ok tt, w') /\
    RobotSimulator._running (simulator w') = RobotSimulator._running (simulator healthy_world) /\
    Db.commands (db w') = Db.commands (db healthy_world) /\
    Db.fault (db w') = Db.fault (db healthy_world).
Proof.
  apply (loop_leaves_commands_alone 2
           ["2024-01-01T00:00:00"; "2024-01-01T00:00:02"] healthy_world).
  unfold SLEEP_DAY. lia.
Defined.

(** X23. With a negative interval the loop ends on its first pass: the pass
    is made, the commit included, and then [time.sleep] raises a
    [ValueError] outside of the [try], which nothing catches; the thread
    never sleeps and makes no second pass. *)
Theorem negative_interval_ends_loop
    (interval : Z) (now : string) (clock : list string) (w : World) :
  interval < 0 ->
  exists w',
    telemetry_generator_loop interval (now :: clock) w =
      (Raise (Exception "ValueError" "sleep length must be non-negative"), w') /\
    Db.commits (db w') = S (Db.commits (db w)) /\
    sleeps (effects w') = sleeps (effects w).
Proof.
  intros Hneg.
  destruct (tick_spec 0 now w) as (r & w1 & pre & Htick & Hs & Heff & Hcommits & _).
  { unfold SLEEP_DAY. lia. }
  cbn [telemetry_generator_loop]. unfold telemetry_generator_tick in *.
  match type of Htick with
  | context [try_except_Exception ?b ?h] => set (guard := try_except_Exception b h) in *
  end.
  unfold abind in Htick |- *.
  destruct (guard w) as [[[]|e] w2]; [|discriminate].
  change (sleep 0 w2) with (perform (Sleep 0) w2) in Htick.
  unfold sleep. rewrite (proj2 (Z.ltb_lt interval 0) Hneg). unfold araise.
  exists w2. split; [reflexivity|].
  apply (f_equal snd) in Htick. cbn [snd] in Htick.
  pose proof (f_equal db Htick) as Hdb. pose proof (f_equal effects Htick) as He.
  cbn in Hdb, He.
  rewrite !app_assoc in He. apply app_inj_tail in He. destruct He as [He _].
  rewrite Hdb, Hcommits. split; [reflexivity|].
  rewrite He, <- app_assoc, !sleeps_app, Heff, Hs.
  assert (sleeps (error_log r) = 0%nat) as ->.
  { destruct r as [|[]]; reflexivity. }
  lia.
Qed.

Lemma negative_interval_ends_loop_witness :
  exists w',
    telemetry_generator_loop (-1) ("2024-01-01T00:00:00" :: ["2024-01-01T00:00:02"])
      healthy_world =
      (Raise (Exception "ValueError" "sleep length must be non-negative"), w') /\
    Db.commits (db w') = S (Db.commits (db healthy_world)) /\
    sleeps (effects w') = sleeps (effects healthy_world).
Proof.
  apply (negative_interval_ends_loop (-1) "2024-01-01T00:00:00"
           ["2024-01-01T00:00:02"] healthy_world).
  lia.
Defined.

Lemma service_command_valid (command : string) (robot_id : option string)
    (now : string) (w : World) :
  command ∈ ["start"; "stop"; "reset"] ->
  TelemetryService.execute_command command robot_id now w =
    (let! result := on_simulator (fun sim => RobotSimulator.execute_command sim command) in
     let! _ := on_db (Db.add_command
                 (command_row (TelemetryService.or_else robot_id "robot_001") command now)) in
     aret (<[ "robot_id" := VStr (TelemetryService.or_else robot_id "robot_001") ]> result)) w.
Proof.
  intros Hin. unfold TelemetryService.execute_command.
  rewrite bool_decide_eq_false_2; [reflexivity|].
  intros Hnot. apply Hnot. exact Hin.
Qed.

Lemma simulator_command_success (self : RobotSimulator.t) (command : string) (g : rng) :
  command ∈ ["start"; "stop"; "reset"] ->
  (RobotSimulator.execute_command self command g).1.1 !! "success" = Some (VBool true).
Proof.
  intros Hin. rewrite execute_command_cases.
  assert (Hcases : command = "start" \/ command = "stop" \/ command = "reset")
    by set_solver.
  destruct Hcases as [-> | [-> | ->]]; reflexivity.
Qed.

(** X19. A valid command whose log is committed runs on the simulator, appends
    one row with the robot id, the command and the time to the command
    table, and returns the simulator's result with the [robot_id] added. *)
Theorem service_command_logged (command : string) (robot_id : option string)
    (now : string) (w : World) :
  command ∈ ["start"; "stop"; "reset"] ->
  Db.fault (db w) (Db.commits (db w)) = None ->
  let r := RobotSimulator.execute_command (simulator w) command (gen w) in
  let rid := TelemetryService.or_else robot_id "robot_001" in
  exists result,
    TelemetryService.execute_command command robot_id now w =
      (Ok result,
       {| simulator := r.1.2; gen := r.2;
          db := {| Db.telemetry := Db.telemetry (db w);
                   Db.commands := Db.commands (db w)
                     ++ [command_row rid command now
                           (Z.of_nat (length (Db.commands (db w))) + 1)];
                   Db.commits := S (Db.commits (db w));
                   Db.fault := Db.fault (db w) |};
          hub := hub w; effects := effects w |}) /\
    result = <[ "robot_id" := VStr rid ]> r.1.1 /\
    result !! "success" = Some (VBool true) /\
    result !! "robot_id" = Some (VStr rid).
Proof.
  intros Hin Hfault r rid.
  rewrite (service_command_valid command robot_id now w Hin).
  eexists. split; [|split; [reflexivity|split]].
  - unfold abind, on_simulator, on_db, Db.add_command, aret.
    fold r. destruct r as [[res sim] g'] eqn:Hr. cbn [db fst snd].
    rewrite Hfault. reflexivity.
  - rewrite lookup_insert_ne by discriminate.
    apply simulator_command_success. exact Hin.
  - apply lookup_insert_eq.
Qed.

Lemma service_command_logged_witness :
  let r := RobotSimulator.execute_command (simulator healthy_world) "stop"
             (gen healthy_world) in
  let rid := TelemetryService.or_else (Some "robot_007") "robot_001" in
  exists result,
    TelemetryService.execute_command "stop" (Some "robot_007") "2024-01-01T00:00:00"
      healthy_world =
      (Ok result,
       {| simulator := r.1.2; gen := r.2;
          db := {| Db.telemetry := Db.telemetry (db healthy_world);
                   Db.commands := Db.commands (db healthy_world)
                     ++ [command_row rid "stop" "2024-01-01T00:00:00"
                           (Z.of_nat (length (Db.commands (db healthy_world))) + 1)];
                   Db.commits := S (Db.commits (db healthy_world));
                   Db.fault := Db.fault (db healthy_world) |};
          hub := hub healthy_world; effects := effects healthy_world |}) /\
    result = <[ "robot_id" := VStr rid ]> r.1.1 /\
    result !! "success" = Some (VBool true) /\
    result !! "robot_id" = Some (VStr rid).
Proof.
  apply (service_command_logged "stop" (Some "robot_007") "2024-01-01T00:00:00"
           healthy_world).
  - apply elem_of_cons. right. apply elem_of_cons. left. reflexivity.
  - reflexivity.
Defined.

(** X20. When the commit of the command log is refused,
    [TelemetryService.execute_command] raises, but the command has taken
    effect on the simulator all the same. *)
Theorem refused_log_keeps_command_effect (command : string) (robot_id : option string)
    (now : string) (w : World) (msg : string) :
  command ∈ ["start"; "stop"; "reset"] ->
  Db.fault (db w) (Db.commits (db w)) = Some msg ->
  let r := RobotSimulator.execute_command (simulator w) command (gen w) in
  TelemetryService.execute_command command robot_id now w =
    (Raise (Exception "SQLAlchemyError" msg),
     {| simulator := r.1.2; gen := r.2;
        db := {| Db.telemetry := Db.telemetry (db w);
                 Db.commands := Db.commands (db w);
                 Db.commits := S (Db.commits (db w));
                 Db.fault := Db.fault (db w) |};
        hub := hub w; effects := effects w |}).
Proof.
  intros Hin Hfault r.
  rewrite (service_command_valid command robot_id now w Hin).
  unfold abind, on_simulator, on_db, Db.add_command, aret.
  fold r. destruct r as [[res sim] g'] eqn:Hr. cbn [db fst snd].
  rewrite Hfault. reflexivity.
Qed.

Lemma refused_log_keeps_command_effect_witness :
  let r := RobotSimulator.execute_command (simulator locked_world) "stop"
             (gen locked_world) in
  TelemetryService.execute_command "stop" None "2024-01-01T00:00:00" locked_world =
    (Raise (Exception "SQLAlchemyError" "database is locked"),
     {| simulator := r.1.2; gen := r.2;
        db := {| Db.telemetry := Db.telemetry (db locked_world);
                 Db.commands := Db.commands (db locked_world);
                 Db.commits := S (Db.commits (db locked_world));
                 Db.fault := Db.fault (db locked_world) |};
        hub := hub locked_world; effects := effects locked_world |}).
Proof.
  apply (refused_log_keeps_command_effect "stop" None "2024-01-01T00:00:00"
           locked_world "database is locked").
  - apply elem_of_cons. right. apply elem_of_cons. left. reflexivity.
  - reflexivity.
Defined.

(** X21. [TelemetryService.execute_command] never emits anything on the hub,
    logs nothing and never touches the telemetry table, whether it rejects
    the command, logs it or fails to. *)
Theorem commands_are_never_broadcast (command : string) (robot_id : option string)
    (now : string) (w : World) :
  let w' := (TelemetryService.execute_command command robot_id now w).2 in
  hub w' = hub w /\ effects w' = effects w /\
  Db.telemetry (db w') = Db.telemetry (db w).
Proof.
  cbv zeta. unfold TelemetryService.execute_command.
  case_bool_decide; [repeat split|].
  unfold abind, on_simulator, on_db, Db.add_command, aret.
  destruct (RobotSimulator.execute_command (simulator w) command (gen w)) as [[res sim] g'].
  cbn [db]. destruct (Db.fault (db w) (Db.commits (db w))); repeat split.
Qed.

(** X22. [save_telemetry] of a dictionary that lacks one of the five sample
    fields raises and leaves the process, the database included, as it
    was. *)
Theorem incomplete_sample_is_not_saved (data : dict) (robot_id : option string)
    (now : string) (w : World) (k : string) :
  k ∈ ["temperature"; "battery"; "motor_rpm"; "status"; "timestamp"] ->
  data !! k = None ->
  exists cls msg,
    TelemetryService.save_telemetry (Some data) robot_id now w
    = (Raise (Exception cls msg), w).
Proof.
  intros Hk Hnone.
  unfold TelemetryService.save_telemetry, abind, aret, lift_result, getitem.
  destruct (data !! "temperature") as [tv|] eqn:Ht; cbn [rbind];
    [destruct (Db.as_float tv) as [t|[]] eqn:Hft; [|eexists; eexists; reflexivity|
       unfold Db.as_float in Hft; destruct (as_number tv); discriminate]
    |eexists; eexists; reflexivity].
  destruct (data !! "battery") as [bv|] eqn:Hb; cbn [rbind];
    [destruct (Db.as_integer bv) as [b|[]] eqn:Hfb; [|eexists; eexists; reflexivity|
       unfold Db.as_integer in Hfb; destruct bv; discriminate]
    |eexists; eexists; reflexivity].
  destruct (data !! "motor_rpm") as [mv|] eqn:Hm; cbn [rbind];
    [destruct (Db.as_integer mv) as [m|[]] eqn:Hfm; [|eexists; eexists; reflexivity|
       unfold Db.as_integer in Hfm; destruct mv; discriminate]
    |eexists; eexists; reflexivity].
  destruct (data !! "status") as [sv|] eqn:Hs; cbn [rbind];
    [destruct (Db.as_string sv) as [s|[]] eqn:Hfs; [|eexists; eexists; reflexivity|
       unfold Db.as_string in Hfs; destruct sv; discriminate]
    |eexists; eexists; reflexivity].
  destruct (data !! "timestamp") as [cv|] eqn:Hc; cbn [rbind];
    [destruct (Db.as_string cv) as [c|[]] eqn:Hfc; [|eexists; eexists; reflexivity|
       unfold Db.as_string in Hfc; destruct cv; discriminate]
    |eexists; eexists; reflexivity].
  exfalso.
  assert (Hcases : k = "temperature" \/ k = "battery" \/ k = "motor_rpm" \/
                   k = "status" \/ k = "timestamp") by set_solver.
  destruct Hcases as [-> | [-> | [-> | [-> | ->]]]]; congruence.
Qed.

Lemma incomplete_sample_is_not_saved_witness :
  exists cls msg,
    TelemetryService.save_telemetry (Some hot_sample) None "2024-01-01T00:00:00"
      healthy_world
    = (Raise (Exception cls msg), healthy_world).
Proof.
  apply (incomplete_sample_is_not_saved hot_sample None "2024-01-01T00:00:00"
           healthy_world "timestamp").
  - set_solver.
  - reflexivity.
Defined.

